(** * The artifact proxy operator: request router and manifest-URL builder

    A shallow embedding of [cmd/artifact-proxy-operator/main.go].  The
    handler is a state-passing program over the response writer and a trace
    of the calls it makes to its collaborators (the OpenShift client, the
    Jenkins client and the plist renderers), which are parameters.  The
    parts of the Go library the file relies on ([strings], [regexp],
    [net/url], [net/http]) are modelled next to it, at the level of bytes. *)

From Stdlib Require Import String Ascii List ZArith Bool Lia.
From stdpp Require Import base option list gmap strings sorting.

Set Default Proof Using "Type".
#[local] Arguments String.append : simpl nomatch.
Local Open Scope string_scope.
Local Open Scope list_scope.
Local Open Scope Z_scope.

(* ===================================================================== *)
(** * Package [strings] *)
(* ===================================================================== *)

Module strings.

(** [strings.HasPrefix(s, p)]. *)
Definition HasPrefix (s p : string) : bool := String.prefix p s.

(** [strings.Contains(s, substr)]: [substr] occurs at some offset of [s]. *)
Fixpoint Contains (s substr : string) : bool :=
  if String.prefix substr s then true
  else match s with
       | EmptyString => false
       | String _ s' => Contains s' substr
       end.

(** [strings.Split(s, sep)] for a separator of one byte: the pieces of
    [s] between the occurrences of [sep], one more than there are
    occurrences. *)
Fixpoint Split (s : string) (sep : ascii) : list string :=
  match s with
  | EmptyString => [EmptyString]
  | String c s' =>
      if Ascii.eqb c sep then EmptyString :: Split s' sep
      else match Split s' sep with
           | piece :: pieces => String c piece :: pieces
           | [] => [String c EmptyString]
           end
  end.

(** [strings.Cut(s, sep)] for a separator of one byte: the text before
    and after the first [sep]; all of [s] and the empty string when
    there is none. *)
Fixpoint Cut (s : string) (sep : ascii) : string * string :=
  match s with
  | EmptyString => (EmptyString, EmptyString)
  | String c s' =>
      if Ascii.eqb c sep then (EmptyString, s')
      else let (before, after) := Cut s' sep in (String c before, after)
  end.

(** [strings.Join(elems, sep)]. *)
Fixpoint Join (elems : list string) (sep : string) : string :=
  match elems with
  | [] => EmptyString
  | [e] => e
  | e :: rest => e +:+ sep +:+ Join rest sep
  end.

(** Number of occurrences of a byte. *)
Fixpoint CountByte (s : string) (c : ascii) : nat :=
  match s with
  | EmptyString => O
  | String a s' => (if Ascii.eqb a c then 1 else 0)%nat + CountByte s' c
  end.

(** Every byte of [s] satisfies [p]. *)
Fixpoint all (p : ascii -> bool) (s : string) : bool :=
  match s with
  | EmptyString => true
  | String a s' => p a && all p s'
  end.

End strings.

(* ===================================================================== *)
(** * Package [regexp] *)
(* ===================================================================== *)

Module regexp.

(** The fragment of the RE2 syntax that the pattern of the program uses,
    closed under derivatives.  [Dot] is [.] without the [s] flag: any
    character but a line feed.  Matching is on bytes; for the patterns
    here that agrees with matching on UTF-8 runes, since every run of
    bytes without a line feed decodes to runes that [.] accepts. *)
Inductive re : Type :=
| Void                      (* matches nothing *)
| Eps                       (* the empty string *)
| Lit (c : ascii)           (* one literal byte *)
| Dot                       (* . *)
| AnyByte                   (* (?s:.) *)
| Cat (r1 r2 : re)
| Alt (r1 r2 : re)
| Star (r : re).

(** A literal word. *)
Fixpoint Word (w : string) : re :=
  match w with
  | EmptyString => Eps
  | String c w' => Cat (Lit c) (Word w')
  end.

Definition newline : ascii := "010"%char.

Definition notNewline (c : ascii) : bool := negb (Ascii.eqb c newline).

Fixpoint nullable (r : re) : bool :=
  match r with
  | Void | Lit _ | Dot | AnyByte => false
  | Eps | Star _ => true
  | Cat r1 r2 => nullable r1 && nullable r2
  | Alt r1 r2 => nullable r1 || nullable r2
  end.

(** Brzozowski derivative of [r] by the byte [c]. *)
Fixpoint deriv (c : ascii) (r : re) : re :=
  match r with
  | Void | Eps => Void
  | Lit a => if Ascii.eqb a c then Eps else Void
  | Dot => if Ascii.eqb c newline then Void else Eps
  | AnyByte => Eps
  | Cat r1 r2 =>
      if nullable r1 then Alt (Cat (deriv c r1) r2) (deriv c r2)
      else Cat (deriv c r1) r2
  | Alt r1 r2 => Alt (deriv c r1) (deriv c r2)
  | Star r1 => Cat (deriv c r1) (Star r1)
  end.

(** [r] matches the whole of [s]. *)
Fixpoint fullmatch (r : re) (s : string) : bool :=
  match s with
  | EmptyString => nullable r
  | String c s' => fullmatch (deriv c r) s'
  end.

(** [regexp.MatchString(pattern, s)] for a pattern that compiles to
    [r]: the pattern is not anchored, so it reports whether SOME
    substring of [s] matches.  The error result is that of compiling the
    pattern; a pattern given as [re] has compiled. *)
Definition MatchString (r : re) (s : string) : bool * option string :=
  (fullmatch (Cat (Star AnyByte) (Cat r (Star AnyByte))) s, None).

(** What it means for [r] to match [s]. *)
Inductive lang : re -> string -> Prop :=
| lang_eps : lang Eps EmptyString
| lang_lit c : lang (Lit c) (String c EmptyString)
| lang_dot c : c <> newline -> lang Dot (String c EmptyString)
| lang_any c : lang AnyByte (String c EmptyString)
| lang_cat r1 r2 s1 s2 :
    lang r1 s1 -> lang r2 s2 -> lang (Cat r1 r2) (s1 +:+ s2)
| lang_alt_l r1 r2 s : lang r1 s -> lang (Alt r1 r2) s
| lang_alt_r r1 r2 s : lang r2 s -> lang (Alt r1 r2) s
| lang_star_nil r : lang (Star r) EmptyString
| lang_star_app r s1 s2 :
    lang r s1 -> lang (Star r) s2 -> lang (Star r) (s1 +:+ s2).

End regexp.

(* ===================================================================== *)
(** * Package [net/url] *)
(* ===================================================================== *)

Module url.

(** The escaping modes the program reaches. *)
Inductive encoding : Type :=
  encodePath | encodeHost | encodeUserPassword | encodeQueryComponent
  | encodeFragment.

Definition between (lo hi : N) (c : ascii) : bool :=
  ((lo <=? N_of_ascii c) && (N_of_ascii c <=? hi))%N.

Definition isAlnum (c : ascii) : bool :=
  between 97 122 c || between 65 90 c || between 48 57 c.

(** The double quote. *)
Definition dquote : ascii := "034"%char.

Definition oneOf (set : string) (c : ascii) : bool :=
  existsb (Ascii.eqb c) (list_ascii_of_string set).

(** [shouldEscape(c, mode)]. *)
Definition shouldEscape (c : ascii) (mode : encoding) : bool :=
  if isAlnum c then false
  else if match mode with
          | encodeHost => oneOf "!$&'()*+,;=:[]<>" c || Ascii.eqb c dquote
          | _ => false
          end then false
  else if oneOf "-_.~" c then false
  else if oneOf "$&+,/:;=?@" c then
    match mode with
    | encodePath => Ascii.eqb c "?"
    | encodeUserPassword => oneOf "@/?:" c
    | encodeQueryComponent => true
    | encodeFragment => false
    | encodeHost => true
    end
  else if match mode with
          | encodeFragment => oneOf "!()*" c
          | _ => false
          end then false
  else true.

Definition upperhex (n : N) : ascii :=
  match String.get (N.to_nat n) "0123456789ABCDEF" with
  | Some c => c
  | None => "0"%char
  end.

(** [escape(s, mode)]: a byte that must be escaped becomes [%XX] with
    upper-case digits, except that a space of a query component becomes
    [+]. *)
Fixpoint escape (s : string) (mode : encoding) : string :=
  match s with
  | EmptyString => EmptyString
  | String c s' =>
      if shouldEscape c mode then
        match mode with
        | encodeQueryComponent =>
            if Ascii.eqb c " " then String "+" (escape s' mode)
            else String "%" (String (upperhex (N_of_ascii c / 16))
                   (String (upperhex (N_of_ascii c mod 16)) (escape s' mode)))
        | _ => String "%" (String (upperhex (N_of_ascii c / 16))
                   (String (upperhex (N_of_ascii c mod 16)) (escape s' mode)))
        end
      else String c (escape s' mode)
  end.

Definition QueryEscape (s : string) : string := escape s encodeQueryComponent.

(** [unhex]; [None] stands for [ishex(c) == false]. *)
Definition unhex (c : ascii) : option N :=
  if between 48 57 c then Some (N_of_ascii c - 48)%N
  else if between 97 102 c then Some (N_of_ascii c - 97 + 10)%N
  else if between 65 70 c then Some (N_of_ascii c - 65 + 10)%N
  else None.

(** [QueryUnescape(s)]: [None] is the [EscapeError] of a [%] that is not
    followed by two hexadecimal digits. *)
Fixpoint QueryUnescape (s : string) : option string :=
  match s with
  | EmptyString => Some EmptyString
  | String c s' =>
      if Ascii.eqb c "%" then
        match s' with
        | String a (String b rest) =>
            match unhex a, unhex b, QueryUnescape rest with
            | Some hi, Some lo, Some t =>
                Some (String (ascii_of_N (hi * 16 + lo)) t)
            | _, _, _ => None
            end
        | _ => None
        end
      else
        match QueryUnescape s' with
        | Some t => Some (String (if Ascii.eqb c "+" then " "%char else c) t)
        | None => None
        end
  end.

(** [unescape(s, mode)] in the modes [encodePath] and [encodeFragment],
    where a [+] stays a [+] and no byte is refused: [None] is the
    [EscapeError] of a [%] that is not followed by two hexadecimal
    digits. *)
Fixpoint unescape (s : string) : option string :=
  match s with
  | EmptyString => Some EmptyString
  | String c s' =>
      if Ascii.eqb c "%" then
        match s' with
        | String a (String b rest) =>
            match unhex a, unhex b, unescape rest with
            | Some hi, Some lo, Some t =>
                Some (String (ascii_of_N (hi * 16 + lo)) t)
            | _, _, _ => None
            end
        | _ => None
        end
      else
        match unescape s' with
        | Some t => Some (String c t)
        | None => None
        end
  end.

(** [validEncoded(s, mode)]. *)
Definition validEncoded (s : string) (mode : encoding) : bool :=
  forallb (fun c => oneOf "!$&'()*+,;=:@[]%" c || negb (shouldEscape c mode))
          (list_ascii_of_string s).

(** [url.Values]: a Go [map[string][]string]. *)
Abbreviation Values := (gmap string (list string)).

(** [Values.Get(key)]: the first value of [key], or the empty string. *)
Definition Get (v : Values) (key : string) : string :=
  match v !! key with
  | Some (x :: _) => x
  | _ => EmptyString
  end.

(** [Values.Add(key, value)]: [v[key] = append(v[key], value)]. *)
Definition Add (v : Values) (key value : string) : Values :=
  <[key := default [] (v !! key) ++ [value]]> v.

(** One [key=value] piece of an encoded query, and the pairs of a map for
    the keys [keys], each key with its values in their order. *)
Definition encodePair (kx : string * string) : string :=
  QueryEscape kx.1 +:+ "=" +:+ QueryEscape kx.2.

Definition pairsOf (v : Values) (keys : list string) : list (string * string) :=
  flat_map (fun k => map (pair k) (default [] (v !! k))) keys.

Definition encodedPairs (v : Values) (keys : list string) : list string :=
  map encodePair (pairsOf v keys).

(** The order of [sort.Strings]: byte-wise lexicographic. *)
Definition sortedKeys (v : Values) : list string :=
  merge_sort String.le (elements (dom v)).

(** [Values.Encode()]: [key=value] pairs with both sides query-escaped,
    joined by [&], the keys in sorted order and the values of one key in
    their own order. *)
Definition Encode (v : Values) : string :=
  strings.Join (encodedPairs v (sortedKeys v)) "&".

(** One [&]-separated piece of a query, as [parseQuery] treats it (Go 1.17
    and later): skipped ([None]) when it holds a semicolon, is empty, or
    has a malformed escape. *)
Definition parsePair (piece : string) : option (string * string) :=
  if strings.Contains piece ";" then None
  else if String.eqb piece EmptyString then None
  else
    let (key, value) := strings.Cut piece "=" in
    match QueryUnescape key, QueryUnescape value with
    | Some k, Some x => Some (k, x)
    | _, _ => None
    end.

(** The well-formed pairs of a raw query, in their order. *)
Definition queryPairs (query : string) : list (string * string) :=
  omap parsePair (strings.Split query "&").

Definition addPairs (pairs : list (string * string)) (v : Values) : Values :=
  foldl (fun m kx => Add m kx.1 kx.2) v pairs.

(** The values that the pairs give to [key], in their order. *)
Fixpoint valuesOf (key : string) (pairs : list (string * string)) : list string :=
  match pairs with
  | [] => []
  | (k, x) :: rest =>
      if String.eqb k key then x :: valuesOf key rest else valuesOf key rest
  end.

(** [ParseQuery(query)], the error dropped as [URL.Query] drops it. *)
Definition ParseQuery (query : string) : Values :=
  addPairs (queryPairs query) ∅.

(** A byte that separates or breaks the pairs of a query. *)
Definition isSeparator (c : ascii) : bool := oneOf "&;=" c.

(** A byte other than [sep]. *)
Definition isNot (sep c : ascii) : bool := negb (Ascii.eqb c sep).

(** No key has an empty list of values, as in every parsed query. *)
Definition NonEmptyValues (v : Values) : Prop :=
  forall k vs, v !! k = Some vs -> vs <> [].

(** An entry cut down to its first value, and a pair as an entry. *)
Definition firstOf (kv : string * list string) : string * list string :=
  prod_map id (take 1) kv.
Definition single (kx : string * string) : string * list string := (kx.1, [kx.2]).

(** [url.Userinfo]. *)
Record Userinfo : Type := {
  username : string;
  password : string;
  passwordSet : bool;
}.

(** [url.URL]; [User] is a pointer, [None] when it is nil. *)
Record URL : Type := mkURL {
  Scheme : string;
  Opaque : string;
  User : option Userinfo;
  Host : string;
  Path : string;
  RawPath : string;
  OmitHost : bool;
  ForceQuery : bool;
  RawQuery : string;
  Fragment : string;
  RawFragment : string;
}.

(** The URL that has a scheme, a host, a path and a query and nothing
    else: every other field has its zero value. *)
Definition bareURL (scheme host path query : string) : URL :=
  {| Scheme := scheme; Opaque := EmptyString; User := None; Host := host;
     Path := path; RawPath := EmptyString; OmitHost := false;
     ForceQuery := false; RawQuery := query; Fragment := EmptyString;
     RawFragment := EmptyString |}.

(** The URL after [u.Path = path]; every other field stays. *)
Definition withPath (u : URL) (path : string) : URL :=
  {| Scheme := Scheme u; Opaque := Opaque u; User := User u; Host := Host u;
     Path := path; RawPath := RawPath u; OmitHost := OmitHost u;
     ForceQuery := ForceQuery u; RawQuery := RawQuery u;
     Fragment := Fragment u; RawFragment := RawFragment u |}.

(** The URL after [u.RawQuery = query]; every other field stays. *)
Definition withRawQuery (u : URL) (query : string) : URL :=
  {| Scheme := Scheme u; Opaque := Opaque u; User := User u; Host := Host u;
     Path := Path u; RawPath := RawPath u; OmitHost := OmitHost u;
     ForceQuery := ForceQuery u; RawQuery := query;
     Fragment := Fragment u; RawFragment := RawFragment u |}.

(** [URL.Query()]. *)
Definition Query (u : URL) : Values := ParseQuery (RawQuery u).

Definition nonEmpty (s : string) : bool := negb (String.eqb s EmptyString).

(** [Userinfo.String()] of a user that is not nil. *)
Definition Userinfo_String (ui : Userinfo) : string :=
  escape (username ui) encodeUserPassword
  +:+ (if passwordSet ui then ":" +:+ escape (password ui) encodeUserPassword
       else EmptyString).

(** Whether [raw] is a valid encoding in [mode] that unescapes to [s]: the
    test under which [EscapedPath] and [EscapedFragment] print the raw
    hint. *)
Definition encodes (raw s : string) (mode : encoding) : bool :=
  nonEmpty raw && validEncoded raw mode
  && match unescape raw with
     | Some p => String.eqb p s
     | None => false
     end.

(** [URL.EscapedPath()]. *)
Definition EscapedPath (u : URL) : string :=
  if encodes (RawPath u) (Path u) encodePath then RawPath u
  else if String.eqb (Path u) "*" then "*" else escape (Path u) encodePath.

(** [URL.EscapedFragment()]. *)
Definition EscapedFragment (u : URL) : string :=
  if encodes (RawFragment u) (Fragment u) encodeFragment then RawFragment u
  else escape (Fragment u) encodeFragment.

(** [u.User != nil]. *)
Definition hasUser (u : URL) : bool :=
  match User u with
  | Some _ => true
  | None => false
  end.

(** [URL.String()]. *)
Definition URL_String (u : URL) : string :=
  let scheme := if nonEmpty (Scheme u) then Scheme u +:+ ":" else EmptyString in
  let authority :=
    if nonEmpty (Scheme u) || nonEmpty (Host u) || hasUser u then
      if OmitHost u && negb (nonEmpty (Host u)) && negb (hasUser u)
      then EmptyString
      else
        (if nonEmpty (Host u) || nonEmpty (Path u) || hasUser u
         then "//" else EmptyString)
        +:+ match User u with
            | Some ui => Userinfo_String ui +:+ "@"
            | None => EmptyString
            end
        +:+ (if nonEmpty (Host u) then escape (Host u) encodeHost else EmptyString)
    else EmptyString in
  let path := EscapedPath u in
  let slash :=
    if nonEmpty path && negb (strings.HasPrefix path "/") && nonEmpty (Host u)
    then "/" else EmptyString in
  let dotslash :=
    if negb (nonEmpty (scheme +:+ authority +:+ slash))
       && strings.Contains (strings.Cut path "/").1 ":"
    then "./" else EmptyString in
  let hier :=
    if nonEmpty (Opaque u) then Opaque u
    else authority +:+ slash +:+ dotslash +:+ path in
  let query :=
    if ForceQuery u || nonEmpty (RawQuery u) then "?" +:+ RawQuery u
    else EmptyString in
  let fragment :=
    if nonEmpty (Fragment u) then "#" +:+ EscapedFragment u else EmptyString in
  scheme +:+ hier +:+ query +:+ fragment.

End url.

(* ===================================================================== *)
(** * Package [net/http]: the response writer *)
(* ===================================================================== *)

Module http.

Definition StatusOK : Z := 200.
Definition StatusBadRequest : Z := 400.
Definition StatusForbidden : Z := 403.
Definition StatusNotFound : Z := 404.
Definition StatusInternalServerError : Z := 500.

Definition isLower (c : ascii) : bool := url.between 97 122 c.
Definition isUpper (c : ascii) : bool := url.between 65 90 c.

Definition validHeaderFieldByte (c : ascii) : bool :=
  url.isAlnum c || url.oneOf "!#$%&'*+-.^_`|~" c.

Fixpoint canonicalFrom (upper : bool) (s : string) : string :=
  match s with
  | EmptyString => EmptyString
  | String c s' =>
      let c' :=
        if upper && isLower c then ascii_of_N (N_of_ascii c - 32)
        else if negb upper && isUpper c then ascii_of_N (N_of_ascii c + 32)
        else c in
      String c' (canonicalFrom (Ascii.eqb c' "-") s')
  end.

(** [textproto.CanonicalMIMEHeaderKey]: [content-type] becomes
    [Content-Type]; a key that is not a header token is left alone. *)
Definition CanonicalMIMEHeaderKey (s : string) : string :=
  if strings.all validHeaderFieldByte s then canonicalFrom true s else s.

(** [http.Header]. *)
Abbreviation Header := (gmap string (list string)).

(** What the handler has made of the response so far: the header map,
    the status line once it is written, the bytes of the body. *)
Record ResponseWriter : Type := mkResponseWriter {
  header : Header;
  status : option Z;
  body : string;
}.

Definition newResponseWriter : ResponseWriter :=
  {| header := ∅; status := None; body := EmptyString |}.

(** [w.Header().Set(key, value)]. *)
Definition Header_Set (w : ResponseWriter) (key value : string) : ResponseWriter :=
  {| header := <[CanonicalMIMEHeaderKey key := [value]]> (header w);
     status := status w; body := body w |}.

(** [w.Header().Del(key)]. *)
Definition Header_Del (w : ResponseWriter) (key : string) : ResponseWriter :=
  {| header := delete (CanonicalMIMEHeaderKey key) (header w);
     status := status w; body := body w |}.

(** [w.Header().Get(key)]. *)
Definition Header_Get (w : ResponseWriter) (key : string) : string :=
  url.Get (header w) (CanonicalMIMEHeaderKey key).

(** [w.WriteHeader(code)]: only the first call sends a status line. *)
Definition WriteHeader (w : ResponseWriter) (code : Z) : ResponseWriter :=
  match status w with
  | Some _ => w
  | None => {| header := header w; status := Some code; body := body w |}
  end.

(** [w.Write(data)]: sends [200 OK] first when no status was written. *)
Definition Write (w : ResponseWriter) (data : string) : ResponseWriter :=
  let w' := WriteHeader w StatusOK in
  {| header := header w'; status := status w'; body := body w' +:+ data |}.

Definition newline : string := String "010"%char EmptyString.

(** [http.Error(w, error, code)]. *)
Definition Error (w : ResponseWriter) (error : string) (code : Z) : ResponseWriter :=
  let w := Header_Del w "Content-Length" in
  let w := Header_Set w "Content-Type" "text/plain; charset=utf-8" in
  let w := Header_Set w "X-Content-Type-Options" "nosniff" in
  let w := WriteHeader w code in
  Write w (error +:+ newline).

(** The status the client sees: a handler that returns without having
    written any gets [200 OK]. *)
Definition StatusCode (w : ResponseWriter) : Z := default StatusOK (status w).

End http.

(* ===================================================================== *)
(** * Package [main] *)
(* ===================================================================== *)

Module main.
Import url.

(** Modelled from the spec: the build object of [pkg/openshift], whose
    declaration is not in [main.go]: a name, and annotations with string
    keys and string values.  The handler reads nothing else of it. *)
Record Build : Type := mkBuild {
  Name : string;
  Annotations : gmap string string;
}.

(** Modelled from the spec: the byte stream that [pkg/jenkins] returns,
    an [io.ReadCloser], seen from its one use: the bytes that [io.Copy]
    moves into the response before it stops, the error it stops with
    (of the source or of the client connection) if it does not reach
    the end, and the error of [Close]. *)
Record ReadCloser : Type := mkReadCloser {
  copied : string;
  copyErr : option string;
  closeErr : option string;
}.

(** An error is its [Error()] text; [None] is [nil]. *)
Abbreviation error := (option string).

(** Modelled from the spec: the collaborators, whose code ([pkg/openshift],
    [pkg/jenkins], [pkg/plist]) is not in [main.go], with the signatures
    of their interface contract, and the process environment.  They are
    parameters of the program.  [osClient] and [jenkinsClient] are the two
    global client handles.  [GetBuild] returns a build object also next
    to an error: the handler reads its name then. *)
Record Env : Type := mkEnv {
  (* osClient *)
  GetBuild : string -> Build * error;
  GetTokenConst : string;
  GetDownloadConst : string;
  GetBuildType : Build -> string * error;
  GenerateArtifactUrl : string -> string -> bool -> string;
  AuthToken : string;
  (* jenkinsClient *)
  StreamArtifact : string -> string -> ReadCloser * error;
  (* plist *)
  ProduceXML : string -> string -> string;
  ProduceHTML : string -> string;
  (* fmt's %s rendering of a build object *)
  SprintBuild : Build -> string;
  (* os.Getenv *)
  Getenv : string -> string;
  (* url.Parse; [None] when it returns an error and a nil URL *)
  Parse : string -> option URL;
}.

(** The request, as far as the handler looks into it. *)
Record Request : Type := mkRequest { URL_ : URL }.

(** What the handler does to the outside, in order. *)
Inductive Call : Type :=
| CallGetBuild (id : string)
| CallGetBuildType (build : Build)
| CallGenerateArtifactUrl (name token : string) (plist : bool)
| CallStreamArtifact (artifactUrl authToken : string)
| CallCopy (src : ReadCloser)
| CallClose (src : ReadCloser)
| CallProduceXML (target name : string)
| CallProduceHTML (target : string)
| CallPrint (text : string).

Record World : Type := mkWorld {
  rw : http.ResponseWriter;
  trace : list Call;
}.

Definition start : World := {| rw := http.newResponseWriter; trace := [] |}.

(** A run either returns or panics (which [net/http] recovers from by
    dropping the connection). *)
Inductive Res (A : Type) : Type :=
| Ret (a : A) (w : World)
| Panic (w : World).
Arguments Ret {A} a w.
Arguments Panic {A} w.

Definition M (A : Type) : Type := World -> Res A.

Definition ret {A} (a : A) : M A := fun w => Ret a w.

Definition bind {A B} (m : M A) (k : A -> M B) : M B :=
  fun w => match m w with
           | Ret a w' => k a w'
           | Panic w' => Panic w'
           end.

Definition panic {A} : M A := fun w => Panic w.

#[global] Instance M_ret : MRet M := @ret.
#[global] Instance M_bind : MBind M := fun A B k m => bind m k.

(** The state a run ends in, whichever way. *)
Definition final {A} (r : Res A) : World :=
  match r with Ret _ w => w | Panic w => w end.

Definition returns {A} (r : Res A) : bool :=
  match r with Ret _ _ => true | Panic _ => false end.

(** [defer f()] around the rest of a function body: [f] runs when the
    body is left, by return or by panic. *)
Definition defer {A} (f : M unit) (rest : M A) : M A :=
  fun w => match rest w with
           | Ret a w' => match f w' with
                         | Ret _ w'' => Ret a w''
                         | Panic w'' => Panic w''
                         end
           | Panic w' => Panic (final (f w'))
           end.

Definition call {A} (c : Call) (result : A) : M A :=
  fun w => Ret result {| rw := rw w; trace := trace w ++ [c] |}.

Definition onWriter (f : http.ResponseWriter -> http.ResponseWriter) : M unit :=
  fun w => Ret tt {| rw := f (rw w); trace := trace w |}.

Definition http_Error (msg : string) (code : Z) : M unit :=
  onWriter (fun w => http.Error w msg code).

Definition Header_Set (key value : string) : M unit :=
  onWriter (fun w => http.Header_Set w key value).

Definition rw_Write (data : string) : M unit :=
  onWriter (fun w => http.Write w data).

(** [io.Copy(rw, src)]: nothing is written for an empty transfer. *)
Definition io_Copy (src : ReadCloser) : M error :=
  call (CallCopy src) tt ;;
  (if String.eqb (copied src) EmptyString then ret tt else rw_Write (copied src)) ;;
  ret (copyErr src).

(** [fmt.Printf] and [fmt.Println], to standard output. *)
Definition fmt_Print (text : string) : M unit := call (CallPrint text) tt.

(** [m[key]] in its two-result form. *)
Definition index (m : gmap string string) (key : string) : string * bool :=
  match m !! key with
  | Some v => (v, true)
  | None => (EmptyString, false)
  end.

(** The pattern ["/.*/download"], compiled. *)
Definition pathPattern : regexp.re :=
  regexp.Cat (regexp.Lit "/")
    (regexp.Cat (regexp.Star regexp.Dot) (regexp.Word "/download")).

Section Program.
Context (env : Env).

Definition validateURLPath (u : URL) : bool * error :=
  regexp.MatchString pathPattern (Path u).

Definition parseToken (u : URL) : string * error :=
  match Query u !! "token" with
  | Some [token] => (token, None)
  | _ => (EmptyString, Some "invalid request, missing token")
  end.

Definition isArtifactRequest (u : URL) : bool :=
  String.eqb (Get (Query u) "artifact") "true".

Definition isPlistRequest (u : URL) : bool :=
  String.eqb (Get (Query u) "plist") "true".

(** The loop [for k, v := range toEncode.Query() { params.Add(k, v[0]) }]
    over the entries in the order [entries]; [None] is the panic of
    [v[0]] on an empty slice. *)
Definition rangeAddFirst (entries : list (string * list string))
    (params : Values) : option Values :=
  foldl (fun acc kv =>
           match acc, kv.2 with
           | Some p, x :: _ => Some (Add p kv.1 x)
           | _, _ => None
           end)
        (Some params) entries.

(** [encodeItmsUrl] when the [range] over the query map visits its
    entries in the order [entries] (Go leaves that order open).
    [None] is a panic: of the nil [directTo] after a failed
    [url.Parse], or of [v[0]].  Whatever else [url.Parse] has put in
    [directTo] (a user, a fragment, a raw path) stays there and is
    printed. *)
Definition encodeItmsUrlIn (entries : list (string * list string))
    (toEncode : URL) : option string :=
  match Parse env ("https://" +:+ Getenv env "OPERATOR_HOSTNAME") with
  | None => None
  | Some directTo =>
      let directTo := withPath directTo (Path toEncode) in
      match rangeAddFirst entries ∅ with
      | None => None
      | Some params =>
          let params := Add params "plist" "true" in
          let directTo := withRawQuery directTo (Encode params) in
          Some (URL_String directTo)
      end
  end.

Definition encodeItmsUrl (toEncode : URL) : option string :=
  encodeItmsUrlIn (map_to_list (Query toEncode)) toEncode.

Definition handleBinaryResponse (artifactUrl extension : string) : M unit :=
  '(artifactStreamer, err) ←
     call (CallStreamArtifact artifactUrl (AuthToken env))
          (StreamArtifact env artifactUrl (AuthToken env));
  match err with
  | Some _ =>
      http_Error "error when streaming atifact" http.StatusInternalServerError
  | None =>
      defer
        (call (CallClose artifactStreamer) tt ;;
         match closeErr artifactStreamer with
         | Some e =>
             fmt_Print ("error. failed to close file handle. could be leaking resources " +:+ e)
         | None => ret tt
         end)
        (Header_Set "content-type" "octet/stream" ;;
         Header_Set "content-disposition"
           ("attachment; filename=" +:+ String dquote extension
              +:+ String dquote EmptyString) ;;
         err ← io_Copy artifactStreamer;
         match err with
         | Some _ =>
             fmt_Print ("error writing download of application binary" +:+ http.newline)
         | None => ret tt
         end)
  end.

Definition handler (r : Request) : M unit :=
  let '(isValid, err) := validateURLPath (URL_ r) in
  match err with
  | Some _ => http_Error "error parsing request" http.StatusInternalServerError
  | None =>
  if negb isValid then
    http_Error "bad request. route should be called with /<build-id>/download?token=eg-token"
               http.StatusBadRequest
  else
  let '(token, err) := parseToken (URL_ r) in
  match err with
  | Some e => http_Error e http.StatusBadRequest
  | None =>
  let splitPath := strings.Split (Path (URL_ r)) "/" in
  if (length splitPath <? 2)%nat then
    http_Error "unable to parse build name from path" http.StatusInternalServerError
  else
  match splitPath !! 1%nat with
  | None => panic
  | Some id =>
  '(build, err) ← call (CallGetBuild id) (GetBuild env id);
  match err with
  | Some e =>
      if strings.Contains e "not found" then
        http_Error ("no resources found for build " +:+ id) http.StatusNotFound
      else
        http_Error ("error fetching build " +:+ Name build)
                   http.StatusInternalServerError
  | None =>
  let '(tokenAnnotationVal, ok) := index (Annotations build) (GetTokenConst env) in
  if negb (String.eqb tokenAnnotationVal token) || negb ok then
    http_Error ("invalid token provided for build " +:+ Name build)
               http.StatusForbidden
  else
  let '(artifactUrl, ok) := index (Annotations build) (GetDownloadConst env) in
  if negb ok || String.eqb artifactUrl EmptyString then
    http_Error "missing annotation on build object" http.StatusInternalServerError
  else
  '(buildType, err) ← call (CallGetBuildType build) (GetBuildType env build);
  match err with
  | Some _ =>
      http_Error ("no build type found for build " +:+ SprintBuild env build)
                 http.StatusBadRequest
  | None =>
  if String.eqb buildType "android" then
    handleBinaryResponse artifactUrl (Name build +:+ ".apk")
  else if String.eqb buildType "ios" then
    if isArtifactRequest (URL_ r) then
      handleBinaryResponse artifactUrl (Name build +:+ ".ipa")
    else if isPlistRequest (URL_ r) then
      target ← call (CallGenerateArtifactUrl (Name build) token true)
                     (GenerateArtifactUrl env (Name build) token true);
      xmlResp ← call (CallProduceXML target (Name build))
                      (ProduceXML env target (Name build));
      Header_Set "content-type" "application/xml" ;;
      rw_Write xmlResp
    else
      match encodeItmsUrl (URL_ r) with
      | None => panic
      | Some target =>
          htmlResp ← call (CallProduceHTML target) (ProduceHTML env target);
          Header_Set "content-type" "text/html" ;;
          rw_Write htmlResp
      end
  else
    http_Error ("invalid build type found for build " +:+ SprintBuild env build)
               http.StatusBadRequest
  end end end end end.

End Program.

(** One request served from a fresh response writer. *)
Definition serve (env : Env) (r : Request) : Res unit := handler env r start.

(** What the client got, and what the handler called, in a run. *)
Definition response (res : Res unit) : http.ResponseWriter := rw (final res).
Definition calls (res : Res unit) : list Call := trace (final res).

(** The response that a lone [http.Error] leaves. *)
Definition errorResponse (msg : string) (code : Z) : http.ResponseWriter :=
  http.Error http.newResponseWriter msg code.

(** A run answers with the status [code] and the plain-text line [msg]. *)
Definition Responds (res : Res unit) (code : Z) (msg : string) : Prop :=
  http.status (response res) = Some code
  /\ http.body (response res) = msg +:+ http.newline.

(** The path shape in the words of the specification: [/<segment>/download],
    the segment not empty and [download] the last segment. *)
Definition specPathShape (path : string) : bool :=
  match strings.Split path "/" with
  | [first; segment; last] =>
      String.eqb first EmptyString && nonEmpty segment && String.eqb last "download"
  | _ => false
  end.

(** The build identifier the handler reads off the path, [splitPath[1]]. *)
Definition buildId (r : Request) : string :=
  nth 1 (strings.Split (Path (URL_ r)) "/") EmptyString.

(** The request passed both validations, and its token is [token]. *)
Definition WellFormed (r : Request) (token : string) : Prop :=
  (validateURLPath (URL_ r)).1 = true /\ parseToken (URL_ r) = (token, None).

(** Moreover the build directory resolved its build to [build]. *)
Definition Resolved (env : Env) (r : Request) (token : string) (build : Build) : Prop :=
  WellFormed r token /\ GetBuild env (buildId r) = (build, None).

(** Moreover [build] carries [token] as its token annotation and the
    non-empty [artifactUrl] as its artifact location. *)
Definition Cleared (env : Env) (r : Request) (token : string) (build : Build)
    (artifactUrl : string) : Prop :=
  Resolved env r token build
  /\ Annotations build !! GetTokenConst env = Some token
  /\ Annotations build !! GetDownloadConst env = Some artifactUrl
  /\ artifactUrl <> EmptyString.

(** The first value of every key. *)
Definition firstValues (v : Values) : Values := take 1 <$> v.

(** The query of the manifest URL: the first value of every inbound
    parameter, and [plist=true] added. *)
Definition manifestParams (toEncode : URL) : Values :=
  Add (firstValues (Query toEncode)) "plist" "true".

(** The value of the [content-disposition] header for a file name. *)
Definition attachment (filename : string) : string :=
  "attachment; filename=" +:+ String dquote filename +:+ String dquote EmptyString.

(** What the binary path does after a successful fetch, in order: the
    copy, the report of a failed copy, the deferred close, the report of
    a failed close. *)
Definition streamingCalls (src : ReadCloser) : list Call :=
  [CallCopy src]
  ++ match copyErr src with
     | Some _ => [CallPrint ("error writing download of application binary" +:+ http.newline)]
     | None => []
     end
  ++ [CallClose src]
  ++ match closeErr src with
     | Some e => [CallPrint ("error. failed to close file handle. could be leaking resources " +:+ e)]
     | None => []
     end.

(** The response of the binary path after a successful fetch: the two
    headers, then the bytes that the copy moved. *)
Definition streamed (w : http.ResponseWriter) (filename : string)
    (src : ReadCloser) : http.ResponseWriter :=
  let w := http.Header_Set w "content-type" "octet/stream" in
  let w := http.Header_Set w "content-disposition" (attachment filename) in
  if String.eqb (copied src) EmptyString then w else http.Write w (copied src).

(** The calls that belong to the binary path. *)
Definition binaryCall (c : Call) : bool :=
  match c with
  | CallStreamArtifact _ _ | CallCopy _ | CallClose _ | CallPrint _ => true
  | _ => false
  end.

(** The state in which the handler dispatches: nothing written yet, the
    build resolved and classified. *)
Definition resolvedAndTyped (r : Request) (build : Build) : World :=
  {| rw := http.newResponseWriter;
     trace := [CallGetBuild (buildId r); CallGetBuildType build] |}.

(** The runs of the handler, branch by branch: the state each branch
    ends in, under the conditions that lead to it. *)
Inductive Outcome (env : Env) (r : Request) : World -> Prop :=
| out_bad_path :
    (validateURLPath (URL_ r)).1 = false ->
    Outcome env r
      {| rw := errorResponse
                 "bad request. route should be called with /<build-id>/download?token=eg-token"
                 http.StatusBadRequest;
         trace := [] |}
| out_bad_token t e :
    (validateURLPath (URL_ r)).1 = true ->
    parseToken (URL_ r) = (t, Some e) ->
    Outcome env r {| rw := errorResponse e http.StatusBadRequest; trace := [] |}
| out_not_found token build e :
    WellFormed r token ->
    GetBuild env (buildId r) = (build, Some e) ->
    strings.Contains e "not found" = true ->
    Outcome env r
      {| rw := errorResponse ("no resources found for build " +:+ buildId r)
                             http.StatusNotFound;
         trace := [CallGetBuild (buildId r)] |}
| out_resolve_error token build e :
    WellFormed r token ->
    GetBuild env (buildId r) = (build, Some e) ->
    strings.Contains e "not found" = false ->
    Outcome env r
      {| rw := errorResponse ("error fetching build " +:+ Name build)
                             http.StatusInternalServerError;
         trace := [CallGetBuild (buildId r)] |}
| out_forbidden token build :
    Resolved env r token build ->
    Annotations build !! GetTokenConst env <> Some token ->
    Outcome env r
      {| rw := errorResponse ("invalid token provided for build " +:+ Name build)
                             http.StatusForbidden;
         trace := [CallGetBuild (buildId r)] |}
| out_missing_annotation token build :
    Resolved env r token build ->
    Annotations build !! GetTokenConst env = Some token ->
    Annotations build !! GetDownloadConst env = None
    \/ Annotations build !! GetDownloadConst env = Some EmptyString ->
    Outcome env r
      {| rw := errorResponse "missing annotation on build object"
                             http.StatusInternalServerError;
         trace := [CallGetBuild (buildId r)] |}
| out_untyped token build artifactUrl buildType e :
    Cleared env r token build artifactUrl ->
    GetBuildType env build = (buildType, Some e) ->
    Outcome env r
      {| rw := errorResponse
                 ("no build type found for build " +:+ SprintBuild env build)
                 http.StatusBadRequest;
         trace := [CallGetBuild (buildId r); CallGetBuildType build] |}
| out_other_type token build artifactUrl buildType :
    Cleared env r token build artifactUrl ->
    GetBuildType env build = (buildType, None) ->
    buildType <> "android" -> buildType <> "ios" ->
    Outcome env r
      {| rw := errorResponse
                 ("invalid build type found for build " +:+ SprintBuild env build)
                 http.StatusBadRequest;
         trace := [CallGetBuild (buildId r); CallGetBuildType build] |}
| out_android token build artifactUrl :
    Cleared env r token build artifactUrl ->
    GetBuildType env build = ("android", None) ->
    Outcome env r
      (final (handleBinaryResponse env artifactUrl (Name build +:+ ".apk")
                                   (resolvedAndTyped r build)))
| out_ios_artifact token build artifactUrl :
    Cleared env r token build artifactUrl ->
    GetBuildType env build = ("ios", None) ->
    isArtifactRequest (URL_ r) = true ->
    Outcome env r
      (final (handleBinaryResponse env artifactUrl (Name build +:+ ".ipa")
                                   (resolvedAndTyped r build)))
| out_ios_plist token build artifactUrl :
    Cleared env r token build artifactUrl ->
    GetBuildType env build = ("ios", None) ->
    isArtifactRequest (URL_ r) = false ->
    isPlistRequest (URL_ r) = true ->
    Outcome env r
      {| rw := http.Write
                 (http.Header_Set http.newResponseWriter "content-type" "application/xml")
                 (ProduceXML env (GenerateArtifactUrl env (Name build) token true)
                             (Name build));
         trace := [CallGetBuild (buildId r); CallGetBuildType build;
                   CallGenerateArtifactUrl (Name build) token true;
                   CallProduceXML (GenerateArtifactUrl env (Name build) token true)
                                  (Name build)] |}
| out_ios_landing token build artifactUrl target :
    Cleared env r token build artifactUrl ->
    GetBuildType env build = ("ios", None) ->
    isArtifactRequest (URL_ r) = false ->
    isPlistRequest (URL_ r) = false ->
    encodeItmsUrl env (URL_ r) = Some target ->
    Outcome env r
      {| rw := http.Write
                 (http.Header_Set http.newResponseWriter "content-type" "text/html")
                 (ProduceHTML env target);
         trace := [CallGetBuild (buildId r); CallGetBuildType build;
                   CallProduceHTML target] |}
| out_ios_panic token build artifactUrl :
    Cleared env r token build artifactUrl ->
    GetBuildType env build = ("ios", None) ->
    isArtifactRequest (URL_ r) = false ->
    isPlistRequest (URL_ r) = false ->
    encodeItmsUrl env (URL_ r) = None ->
    Outcome env r (resolvedAndTyped r build).

End main.

(* ===================================================================== *)
(** * Package [main]: start-up *)
(* ===================================================================== *)

Module startup.

(** What the main goroutine does at start-up, in order.  [ActGo] is the
    [go] statement that starts the build watcher; [ActFatal] is the line
    that [log.Fatal] or [log.Fatalf] writes before it ends the process. *)
Inductive Action : Type :=
| ActNewJenkinsClient
| ActNewOpenShiftClient
| ActGo (task : string)
| ActHandleFunc (pattern : string)
| ActListenAndServe (addr : string)
| ActFatal (line : string)
| ActPrintf (text : string).

(** Modelled from the spec: what start-up depends on, as parameters: the
    error of [openshift.NewOpenShiftClient] (whose code is not in
    [main.go]), the process environment, and the error with which
    [http.ListenAndServe] comes back once the server has stopped. *)
Record Boot : Type := mkBoot {
  NewOpenShiftClient : main.error;
  Getenv : string -> string;
  ListenAndServe : string -> main.error;
}.

(** A start-up step: [None] when the process has been ended. *)
Definition Proc (A : Type) : Type := list Action -> option A * list Action.

#[global] Instance Proc_ret : MRet Proc := fun A a t => (Some a, t).
#[global] Instance Proc_bind : MBind Proc :=
  fun A B k m t => match m t with
                   | (Some a, t') => k a t'
                   | (None, t') => (None, t')
                   end.

Definition act {A} (a : Action) (result : A) : Proc A :=
  fun t => (Some result, t ++ [a]).

(** [log.Fatal(line)]: the line is logged and the process exits. *)
Definition log_Fatal {A} (line : string) : Proc A :=
  fun t => (None, t ++ [ActFatal line]).

Section Boot.
Context (b : Boot).

Definition serveHttp : Proc unit :=
  act (ActHandleFunc "/") tt ;;
  let listen := Getenv b "ARTIFACT_PROXY_OPERATOR_SERVICE_PORT" in
  let listen :=
    if (String.length listen =? 0)%nat then ":8080" else ":" +:+ listen in
  err ← act (ActListenAndServe listen) (ListenAndServe b listen);
  match err with
  | Some e =>
      log_Fatal ("error starting http server on " +:+ listen +:+ ", (" +:+ e +:+ ")")
  | None => mret tt
  end ;;
  act (ActPrintf ("listening on " +:+ listen)) tt.

Definition main : Proc unit :=
  act ActNewJenkinsClient tt ;;
  err ← act ActNewOpenShiftClient (NewOpenShiftClient b);
  match err with
  | Some e => log_Fatal ("error instantiating OpenShiftClient - error " +:+ e)
  | None => mret tt
  end ;;
  act (ActGo "osClient.WatchBuilds") tt ;;
  serveHttp.

End Boot.

(** The actions of a run from the start of the process, and whether the
    run came to its end without [log.Fatal]. *)
Definition actions (p : Proc unit) : list Action := (p []).2.
Definition completed (p : Proc unit) : bool :=
  match (p []).1 with Some _ => true | None => false end.

End startup.

(* ===================================================================== *)
(** * A small deployment to run the program on *)
(* ===================================================================== *)

Module sample.
Import url main.

Definition tokenKey : string := "tokenKey".
Definition downloadKey : string := "downloadKey".

Definition annotated (name token location : string) : Build :=
  {| Name := name;
     Annotations := <[tokenKey := token]> (<[downloadKey := location]> ∅) |}.

Definition noBuild : Build := {| Name := EmptyString; Annotations := ∅ |}.

(** The builds of the deployment: [build42] and [b1] are android builds,
    [ios7] an ios build, [blank] carries an empty token annotation,
    [bare] no annotation at all, [nodl] no artifact location, [odd] is
    classified as something else and [untyped] not at all; the directory
    is unreachable for [down] and knows no other build. *)
Definition getBuild (id : string) : Build * error :=
  if String.eqb id "build42" then (annotated id "right" "http://store/a.bin", None)
  else if String.eqb id "b1" then (annotated id "abc" "http://store/cut.bin", None)
  else if String.eqb id "ios7" then (annotated id "right" "http://store/a.ipa", None)
  else if String.eqb id "blank" then (annotated id EmptyString "http://store/a.bin", None)
  else if String.eqb id "bare" then ({| Name := id; Annotations := ∅ |}, None)
  else if String.eqb id "nodl" then
    ({| Name := id; Annotations := {[tokenKey := "right"]} |}, None)
  else if String.eqb id "odd" then (annotated id "right" "http://store/a.exe", None)
  else if String.eqb id "untyped" then (annotated id "right" "http://store/a.bin", None)
  else if String.eqb id "down" then (noBuild, Some "connection refused")
  else (noBuild, Some "build not found").

Definition getBuildType (b : Build) : string * error :=
  if String.eqb (Name b) "ios7" then ("ios", None)
  else if String.eqb (Name b) "odd" then ("windows", None)
  else if String.eqb (Name b) "untyped" then (EmptyString, Some "no build type found")
  else ("android", None).

Definition closed : ReadCloser :=
  {| copied := EmptyString; copyErr := None; closeErr := None |}.

(** The artifact store: two artifacts that stream to their end, one
    whose transfer breaks off, nothing else. *)
Definition streamArtifact (artifactUrl authToken : string) : ReadCloser * error :=
  if String.eqb artifactUrl "http://store/a.bin"
     || String.eqb artifactUrl "http://store/a.ipa" then
    ({| copied := "PK-bytes"; copyErr := None; closeErr := None |}, None)
  else if String.eqb artifactUrl "http://store/cut.bin" then
    ({| copied := "PK-"; copyErr := Some "broken pipe";
        closeErr := Some "already closed" |}, None)
  else (closed, Some "unexpected status 404").

Definition unreserved (c : ascii) : bool := isAlnum c || oneOf "-._~" c.

(** [url.Parse] on [https://] followed by a host name of unreserved
    bytes, where [net/url] returns the scheme and the host and leaves
    every other field empty; on [https://ops@gateway.example.com#top],
    which has a user and a fragment besides; and on a host name with a
    space, such as [bad host], which [net/url] refuses (invalid character
    in host name) and for which it returns a nil URL.  No other input is
    parsed here. *)
Definition parseHostOnly (rawURL : string) : option URL :=
  if String.eqb rawURL "https://ops@gateway.example.com#top" then
    Some {| Scheme := "https"; Opaque := EmptyString;
            User := Some {| username := "ops"; password := EmptyString;
                            passwordSet := false |};
            Host := "gateway.example.com"; Path := EmptyString;
            RawPath := EmptyString; OmitHost := false; ForceQuery := false;
            RawQuery := EmptyString; Fragment := "top";
            RawFragment := EmptyString |}
  else if strings.HasPrefix rawURL "https://" then
    let host := String.substring 8 (String.length rawURL - 8) rawURL in
    if strings.all unreserved host then Some (bareURL "https" host EmptyString EmptyString)
    else None
  else None.

Definition env : Env :=
  {| GetBuild := getBuild;
     GetTokenConst := tokenKey;
     GetDownloadConst := downloadKey;
     GetBuildType := getBuildType;
     GenerateArtifactUrl := fun name token plist =>
       "https://gateway.example.com/" +:+ name +:+ "/download?token=" +:+ token
         +:+ (if plist then "&plist=true" else EmptyString);
     AuthToken := "service-credential";
     StreamArtifact := streamArtifact;
     ProduceXML := fun target name =>
       "<plist><name>" +:+ name +:+ "</name><url>" +:+ target +:+ "</url></plist>";
     ProduceHTML := fun target => "<a href='" +:+ target +:+ "'>install</a>";
     SprintBuild := fun b => "&{" +:+ Name b +:+ "}";
     Getenv := fun key =>
       if String.eqb key "OPERATOR_HOSTNAME" then "gateway.example.com"
       else EmptyString;
     Parse := parseHostOnly |}.

(** The deployment under another value of [OPERATOR_HOSTNAME]. *)
Definition withHostname (hostname : string) : Env :=
  {| GetBuild := GetBuild env;
     GetTokenConst := GetTokenConst env;
     GetDownloadConst := GetDownloadConst env;
     GetBuildType := GetBuildType env;
     GenerateArtifactUrl := GenerateArtifactUrl env;
     AuthToken := AuthToken env;
     StreamArtifact := StreamArtifact env;
     ProduceXML := ProduceXML env;
     ProduceHTML := ProduceHTML env;
     SprintBuild := SprintBuild env;
     Getenv := fun key =>
       if String.eqb key "OPERATOR_HOSTNAME" then hostname else EmptyString;
     Parse := Parse env |}.

(** A host name that [url.Parse] refuses, and one with a user and a
    fragment. *)
Definition envBadHost : Env := withHostname "bad host".
Definition envUserHost : Env := withHostname "ops@gateway.example.com#top".

(** [r.URL] of a request received by the server: a path and a query. *)
Definition request (path query : string) : Request :=
  {| URL_ := bareURL EmptyString EmptyString path query |}.

(** Inbound URLs for the manifest-URL builder: the one of the
    specification, and two that list the same parameters, one of them
    twice, in different orders. *)
Definition inbound : URL :=
  bareURL "https" "host" "/b1/download" "token=abc".
Definition repeatedParam : URL :=
  bareURL "https" "host" "/b1/download" "x=1&x=2&token=abc".
Definition repeatedSwapped : URL :=
  bareURL "https" "host" "/b1/download" "x=2&x=1&token=abc".
Definition reordered : URL :=
  bareURL "https" "host" "/b1/download" "token=abc&artifact=true".
Definition reorderedSwapped : URL :=
  bareURL "https" "host" "/b1/download" "artifact=true&token=abc".

(** Start-up with the port 9090 configured, and a server that stops
    because the address is taken. *)
Definition boot : startup.Boot :=
  {| startup.NewOpenShiftClient := None;
     startup.Getenv := fun key =>
       if String.eqb key "ARTIFACT_PROXY_OPERATOR_SERVICE_PORT" then "9090"
       else EmptyString;
     startup.ListenAndServe := fun addr => Some "address already in use" |}.

(** Start-up without a cluster to talk to. *)
Definition bootNoCluster : startup.Boot :=
  {| startup.NewOpenShiftClient := Some "no cluster configuration";
     startup.Getenv := fun _ => EmptyString;
     startup.ListenAndServe := fun addr => Some "address already in use" |}.

(** Requests of the walk-through. *)
Definition goodAndroid : Request := request "/build42/download" "token=right".
Definition wrongToken : Request := request "/build42/download" "token=wrong".
Definition twoTokens : Request := request "/build42/download" "token=right&token=right".
Definition emptyToken : Request := request "/blank/download" "token=".
Definition extraSegment : Request := request "/b1/download/extra" "token=abc".
Definition emptySegment : Request := request "//download" "token=right".
Definition unknownBuild : Request := request "/nope/download" "token=right".
Definition bareBuild : Request := request "/bare/download" "token=x".
Definition noLocation : Request := request "/nodl/download" "token=right".
Definition iosLanding : Request := request "/ios7/download" "token=right".
Definition iosManifest : Request := request "/ios7/download" "token=right&plist=true".
Definition iosBoth : Request :=
  request "/ios7/download" "token=right&plist=true&artifact=true".
Definition iosShouting : Request :=
  request "/ios7/download" "token=right&plist=TRUE&artifact=True".

End sample.

(* ===================================================================== *)
(** * Facts about strings *)
(* ===================================================================== *)

Module strings_facts.
Import strings.

Lemma append_nil_r (s : string) : s +:+ EmptyString = s.
Proof. induction s as [|c s IH]; simpl; [reflexivity | now rewrite IH]. Qed.

Lemma append_assoc (a b c : string) : (a +:+ b) +:+ c = a +:+ (b +:+ c).
Proof. induction a as [|x a IH]; simpl; [reflexivity | now rewrite IH]. Qed.

Lemma append_eq_nil (a b : string) :
  a +:+ b = EmptyString -> a = EmptyString /\ b = EmptyString.
Proof. destruct a; simpl; [auto | discriminate]. Qed.

(** A non-empty concatenation starts in its first part, or the first part
    is empty and it starts in the second. *)
Lemma append_eq_cons (a b : string) (c : ascii) (s : string) :
  a +:+ b = String c s ->
  (a = EmptyString /\ b = String c s) \/
  (exists a', a = String c a' /\ s = a' +:+ b).
Proof.
  destruct a as [|x a]; simpl; intros H.
  - left; auto.
  - right. injection H as -> <-. eauto.
Qed.

Lemma CountByte_app (a b : string) (c : ascii) :
  CountByte (a +:+ b) c = (CountByte a c + CountByte b c)%nat.
Proof. induction a as [|x a IH]; simpl; [reflexivity | rewrite IH; lia]. Qed.

(** [Split] returns one piece more than there are separators. *)
Lemma Split_length (s : string) (sep : ascii) :
  length (Split s sep) = S (CountByte s sep).
Proof.
  induction s as [|c s IH]; simpl; [reflexivity |].
  destruct (Ascii.eqb c sep); simpl; [now rewrite IH |].
  destruct (Split s sep) as [|p ps]; simpl in *; [discriminate | exact IH].
Qed.

Lemma prefix_app (p s : string) : String.prefix p (p +:+ s) = true.
Proof.
  induction p as [|c p IH]; simpl; [now destruct s |].
  destruct (ascii_dec c c); [exact IH | contradiction].
Qed.

Lemma prefix_inv (p s : string) :
  String.prefix p s = true -> exists t, s = p +:+ t.
Proof.
  revert s; induction p as [|c p IH]; intros s H.
  - exists s; reflexivity.
  - destruct s as [|d s]; simpl in H; [discriminate |].
    destruct (ascii_dec c d) as [->|]; [|discriminate].
    destruct (IH _ H) as [t ->]. exists t; reflexivity.
Qed.

Lemma Contains_unfold (s sub : string) :
  Contains s sub =
  if String.prefix sub s then true
  else match s with
       | EmptyString => false
       | String _ s' => Contains s' sub
       end.
Proof. destruct s; reflexivity. Qed.

(** [Contains] finds exactly the substrings. *)
Lemma Contains_spec (s sub : string) :
  Contains s sub = true <-> exists a b, s = a +:+ sub +:+ b.
Proof.
  split.
  - induction s as [|c s IH]; rewrite Contains_unfold;
      destruct (String.prefix sub _) eqn:E; intros H; try discriminate.
    + apply prefix_inv in E as [t Ht]. exists EmptyString, t. exact Ht.
    + apply prefix_inv in E as [t Ht]. exists EmptyString, t. exact Ht.
    + destruct (IH H) as (a & b & ->). exists (String c a), b. reflexivity.
  - intros (a & b & ->). induction a as [|c a IH]; rewrite Contains_unfold.
    + simpl. now rewrite prefix_app.
    + destruct (String.prefix sub _); [reflexivity | exact IH].
Qed.

End strings_facts.

(* ===================================================================== *)
(** * The matcher decides the language of a pattern *)
(* ===================================================================== *)

Module regexp_facts.
Import regexp strings_facts.

Lemma nullable_lang (r : re) : nullable r = true <-> lang r EmptyString.
Proof.
  split.
  - induction r; simpl; intros H; try discriminate.
    + constructor.
    + apply andb_prop in H as [H1 H2].
      change EmptyString with (EmptyString +:+ EmptyString).
      constructor; auto.
    + apply orb_prop in H as [H|H]; [apply lang_alt_l | apply lang_alt_r]; auto.
    + constructor.
  - intros H. remember EmptyString as s eqn:Es.
    induction H; simpl; try discriminate; try reflexivity.
    + apply append_eq_nil in Es as [-> ->]. rewrite IHlang1, IHlang2; auto.
    + rewrite IHlang; auto.
    + rewrite IHlang; auto using orb_true_r.
Qed.

Lemma deriv_sound (c : ascii) (r : re) (s : string) :
  lang (deriv c r) s -> lang r (String c s).
Proof.
  revert s; induction r; simpl; intros s H.
  - inversion H.
  - inversion H.
  - destruct (Ascii.eqb_spec c0 c) as [->|]; inversion H; subst. constructor.
  - destruct (Ascii.eqb_spec c newline) as [->|Hc]; inversion H; subst.
    now constructor.
  - inversion H; subst. constructor.
  - assert (Hcat : forall t, lang (Cat (deriv c r1) r2) t -> lang (Cat r1 r2) (String c t)).
    { intros t Ht. inversion Ht; subst.
      change (String c (s1 +:+ s2)) with (String c s1 +:+ s2).
      constructor; auto. }
    destruct (nullable r1) eqn:N; [|auto].
    inversion H; subst; [auto|].
    change (String c s) with (EmptyString +:+ String c s).
    constructor; [now apply nullable_lang | auto].
  - inversion H; subst; [apply lang_alt_l | apply lang_alt_r]; auto.
  - inversion H; subst.
    change (String c (s1 +:+ s2)) with (String c s1 +:+ s2).
    apply lang_star_app; auto.
Qed.

Lemma deriv_complete (c : ascii) (r : re) (s : string) :
  lang r (String c s) -> lang (deriv c r) s.
Proof.
  intros H. remember (String c s) as w eqn:Ew. revert s Ew.
  induction H; intros t Ew; simpl; try discriminate.
  - injection Ew as -> <-. rewrite Ascii.eqb_refl. constructor.
  - injection Ew as -> <-.
    destruct (Ascii.eqb_spec c newline); [contradiction | constructor].
  - injection Ew as -> <-. constructor.
  - apply append_eq_cons in Ew as [[-> ->] | (a' & -> & ->)].
    + assert (N : nullable r1 = true) by now apply nullable_lang.
      rewrite N. apply lang_alt_r; auto.
    + assert (lang (Cat (deriv c r1) r2) (a' +:+ s2)) by (constructor; auto).
      destruct (nullable r1); [apply lang_alt_l|]; assumption.
  - apply lang_alt_l; auto.
  - apply lang_alt_r; auto.
  - apply append_eq_cons in Ew as [[-> ->] | (a' & -> & ->)].
    + apply (IHlang2 t); reflexivity.
    + constructor; auto.
Qed.

(** The derivative matcher accepts exactly the language of the pattern. *)
Lemma fullmatch_lang (r : re) (s : string) : fullmatch r s = true <-> lang r s.
Proof.
  revert r; induction s as [|c s IH]; intros r; simpl.
  - apply nullable_lang.
  - rewrite IH. split; [apply deriv_sound | apply deriv_complete].
Qed.

Lemma lang_cat_inv (r1 r2 : re) (s : string) :
  lang (Cat r1 r2) s <-> exists s1 s2, s = s1 +:+ s2 /\ lang r1 s1 /\ lang r2 s2.
Proof.
  split.
  - intros H; inversion H; subst; eauto.
  - intros (s1 & s2 & -> & H1 & H2). now constructor.
Qed.

Lemma lang_star_any (s : string) : lang (Star AnyByte) s.
Proof.
  induction s as [|c s IH]; [constructor |].
  change (String c s) with (String c EmptyString +:+ s).
  apply lang_star_app; [constructor | exact IH].
Qed.

Lemma lang_star_dot (s : string) :
  lang (Star Dot) s <-> strings.all notNewline s = true.
Proof.
  split.
  - intros H. remember (Star Dot) as r eqn:Er.
    induction H; try discriminate; [reflexivity |].
    injection Er as ->. specialize (IHlang2 eq_refl).
    inversion H; subst. simpl. unfold notNewline at 1.
    destruct (Ascii.eqb_spec c newline); [contradiction | exact IHlang2].
  - induction s as [|c s IH]; simpl; intros H; [constructor |].
    apply andb_prop in H as [Hc Hs].
    change (String c s) with (String c EmptyString +:+ s).
    apply lang_star_app; [|auto]. constructor.
    unfold notNewline in Hc. now destruct (Ascii.eqb_spec c newline).
Qed.

Lemma lang_word (w s : string) : lang (Word w) s <-> s = w.
Proof.
  revert s; induction w as [|c w IH]; intros s; simpl.
  - split; [intros H; now inversion H | intros ->; constructor].
  - rewrite lang_cat_inv. split.
    + intros (s1 & s2 & -> & H1 & H2). inversion H1; subst.
      apply IH in H2 as ->. reflexivity.
    + intros ->. exists (String c EmptyString), w.
      split; [reflexivity | split; [constructor | now apply IH]].
Qed.

(** An unanchored match is a match of some substring. *)
Lemma MatchString_spec (r : re) (s : string) :
  (MatchString r s).1 = true <->
  exists a m b, s = a +:+ m +:+ b /\ lang r m.
Proof.
  unfold MatchString; simpl fst. rewrite fullmatch_lang, lang_cat_inv. split.
  - intros (a & t & -> & _ & Ht). apply lang_cat_inv in Ht as (m & b & -> & Hm & _).
    eauto.
  - intros (a & m & b & -> & Hm). exists a, (m +:+ b).
    split; [reflexivity | split; [apply lang_star_any |]].
    apply lang_cat_inv. exists m, b. auto using lang_star_any.
Qed.

Lemma MatchString_no_error (r : re) (s : string) : (MatchString r s).2 = None.
Proof. reflexivity. Qed.

End regexp_facts.

(* ===================================================================== *)
(** * The path validator *)
(* ===================================================================== *)

Module path_facts.
Import url main strings_facts regexp_facts.

Lemma lang_pathPattern (m : string) :
  regexp.lang pathPattern m <->
  exists seg, m = "/" +:+ seg +:+ "/download"
              /\ strings.all regexp.notNewline seg = true.
Proof.
  unfold pathPattern. rewrite lang_cat_inv. split.
  - intros (s1 & s2 & -> & H1 & H2). inversion H1; subst.
    apply lang_cat_inv in H2 as (seg & w & -> & Hseg & Hw).
    apply lang_word in Hw as ->. apply lang_star_dot in Hseg.
    exists seg. split; [reflexivity | exact Hseg].
  - intros (seg & -> & Hseg). exists "/", (seg +:+ "/download").
    split; [reflexivity | split; [constructor |]].
    apply lang_cat_inv. exists seg, "/download".
    split; [reflexivity | split; [now apply lang_star_dot | now apply lang_word]].
Qed.

(** The validator accepts a path exactly when somewhere in it a slash is
    followed, after any bytes other than line feeds, by [/download]. *)
Lemma validateURLPath_spec (u : URL) :
  (validateURLPath u).1 = true <->
  exists before seg after,
    Path u = before +:+ "/" +:+ seg +:+ "/download" +:+ after
    /\ strings.all regexp.notNewline seg = true.
Proof.
  unfold validateURLPath. rewrite MatchString_spec. split.
  - intros (a & m & b & E & Hm). apply lang_pathPattern in Hm as (seg & -> & Hseg).
    exists a, seg, b. split; [|exact Hseg].
    rewrite E. simpl. now rewrite !append_assoc.
  - intros (a & seg & b & E & Hseg). exists a, ("/" +:+ seg +:+ "/download"), b.
    split; [| apply lang_pathPattern; eauto].
    rewrite E. simpl. now rewrite !append_assoc.
Qed.

Lemma validateURLPath_no_error (u : URL) : (validateURLPath u).2 = None.
Proof. reflexivity. Qed.

Lemma validateURLPath_pair (u : URL) :
  validateURLPath u = ((validateURLPath u).1, None).
Proof. reflexivity. Qed.

(** An accepted path holds two slashes at least. *)
Lemma accepted_two_slashes (u : URL) :
  (validateURLPath u).1 = true -> (2 <= strings.CountByte (Path u) "/")%nat.
Proof.
  intros H. apply validateURLPath_spec in H as (a & seg & b & -> & _).
  rewrite CountByte_app. simpl. rewrite CountByte_app. simpl. lia.
Qed.

Lemma accepted_split (u : URL) :
  (validateURLPath u).1 = true ->
  exists s0 id s2 rest, strings.Split (Path u) "/" = s0 :: id :: s2 :: rest.
Proof.
  intros H. apply accepted_two_slashes in H.
  pose proof (Split_length (Path u) "/") as L.
  destruct (strings.Split (Path u) "/") as [|s0 [|id [|s2 rest]]]; simpl in L;
    try lia. eauto.
Qed.

End path_facts.

(* ===================================================================== *)
(** * The handler, branch by branch *)
(* ===================================================================== *)

Module handler_facts.
Import url main strings_facts path_facts.

#[local] Arguments http.Error : simpl never.
#[local] Arguments http.Write : simpl never.
#[local] Arguments http.Header_Set : simpl never.
#[local] Arguments strings.Contains : simpl never.
#[local] Arguments String.eqb : simpl never.
#[local] Arguments String.append : simpl never.
#[local] Arguments encodeItmsUrl : simpl never.

(** Unfolds the handler on a well-formed request up to the call of the
    build directory. *)
Ltac enter H :=
  let Hp := fresh "Hp" in
  let Ht := fresh "Ht" in
  let Es := fresh "Es" in
  destruct H as [Hp Ht];
  destruct (accepted_split _ Hp) as (?s0 & ?id & ?s2 & ?rest & Es);
  unfold response, calls, serve, handler, buildId in *;
  rewrite validateURLPath_pair, Hp, Ht; rewrite Es in *;
  cbn [negb length Nat.ltb Nat.leb lookup list_lookup nth] in *.

Ltac run :=
  unfold mbind, M_bind, mret, M_ret, bind, call, ret, onWriter, http_Error,
    Header_Set, rw_Write, fmt_Print, start, index, panic;
  cbn [final rw trace app fst snd negb orb andb].

Lemma eqb_same (s : string) : String.eqb s s = true.
Proof. apply String.eqb_refl. Qed.

Lemma eqb_differ (s t : string) : s <> t -> String.eqb s t = false.
Proof. apply String.eqb_neq. Qed.

(** A path that the validator refuses is answered with 400 at once. *)
Lemma handler_bad_path (env : Env) (r : Request) :
  (validateURLPath (URL_ r)).1 = false ->
  final (serve env r) =
    {| rw := errorResponse
               "bad request. route should be called with /<build-id>/download?token=eg-token"
               http.StatusBadRequest;
       trace := [] |}.
Proof.
  intros Hp. unfold serve, handler. rewrite validateURLPath_pair, Hp.
  reflexivity.
Qed.

(** So is a query without exactly one token, with the text of the error
    of [parseToken]. *)
Lemma handler_bad_token (env : Env) (r : Request) (t e : string) :
  (validateURLPath (URL_ r)).1 = true ->
  parseToken (URL_ r) = (t, Some e) ->
  final (serve env r) =
    {| rw := errorResponse e http.StatusBadRequest; trace := [] |}.
Proof.
  intros Hp Ht. unfold serve, handler. rewrite validateURLPath_pair, Hp, Ht.
  reflexivity.
Qed.

Lemma handler_not_found (env : Env) (r : Request) (token : string)
    (build : Build) (e : string) :
  WellFormed r token ->
  GetBuild env (buildId r) = (build, Some e) ->
  strings.Contains e "not found" = true ->
  final (serve env r) =
    {| rw := errorResponse ("no resources found for build " +:+ buildId r)
                           http.StatusNotFound;
       trace := [CallGetBuild (buildId r)] |}.
Proof.
  intros W Hb He. enter W. run. rewrite Hb, He. reflexivity.
Qed.

Lemma handler_resolve_error (env : Env) (r : Request) (token : string)
    (build : Build) (e : string) :
  WellFormed r token ->
  GetBuild env (buildId r) = (build, Some e) ->
  strings.Contains e "not found" = false ->
  final (serve env r) =
    {| rw := errorResponse ("error fetching build " +:+ Name build)
                           http.StatusInternalServerError;
       trace := [CallGetBuild (buildId r)] |}.
Proof.
  intros W Hb He. enter W. run. rewrite Hb, He. reflexivity.
Qed.

Lemma handler_forbidden (env : Env) (r : Request) (token : string) (build : Build) :
  Resolved env r token build ->
  Annotations build !! GetTokenConst env <> Some token ->
  final (serve env r) =
    {| rw := errorResponse ("invalid token provided for build " +:+ Name build)
                           http.StatusForbidden;
       trace := [CallGetBuild (buildId r)] |}.
Proof.
  intros [W Hb] Hne. enter W. run. rewrite Hb.
  destruct (Annotations build !! GetTokenConst env) as [v|].
  - rewrite eqb_differ; [reflexivity | congruence].
  - cbn [negb]. rewrite orb_true_r. reflexivity.
Qed.

Lemma handler_missing_annotation (env : Env) (r : Request) (token : string)
    (build : Build) :
  Resolved env r token build ->
  Annotations build !! GetTokenConst env = Some token ->
  Annotations build !! GetDownloadConst env = None
  \/ Annotations build !! GetDownloadConst env = Some EmptyString ->
  final (serve env r) =
    {| rw := errorResponse "missing annotation on build object"
                           http.StatusInternalServerError;
       trace := [CallGetBuild (buildId r)] |}.
Proof.
  intros [W Hb] Htok Hdl. enter W. run. rewrite Hb, Htok, eqb_same.
  destruct Hdl as [-> | ->]; reflexivity.
Qed.

(** Unfolds the handler on a cleared request up to the classification of
    the build. *)
Ltac clear_checks H :=
  let W := fresh "W" in
  let Hb := fresh "Hb" in
  let Htok := fresh "Htok" in
  let Hdl := fresh "Hdl" in
  let Hne := fresh "Hne" in
  destruct H as ([W Hb] & Htok & Hdl & Hne);
  enter W; run; rewrite Hb, Htok, Hdl, eqb_same, (eqb_differ _ _ Hne);
  cbn [negb orb].

Lemma handler_untyped (env : Env) (r : Request) (token : string)
    (build : Build) (artifactUrl buildType e : string) :
  Cleared env r token build artifactUrl ->
  GetBuildType env build = (buildType, Some e) ->
  final (serve env r) =
    {| rw := errorResponse ("no build type found for build " +:+ SprintBuild env build)
                           http.StatusBadRequest;
       trace := [CallGetBuild (buildId r); CallGetBuildType build] |}.
Proof.
  intros C Hty. clear_checks C. rewrite Hty. reflexivity.
Qed.

Lemma handler_other_type (env : Env) (r : Request) (token : string)
    (build : Build) (artifactUrl buildType : string) :
  Cleared env r token build artifactUrl ->
  GetBuildType env build = (buildType, None) ->
  buildType <> "android" -> buildType <> "ios" ->
  final (serve env r) =
    {| rw := errorResponse ("invalid build type found for build " +:+ SprintBuild env build)
                           http.StatusBadRequest;
       trace := [CallGetBuild (buildId r); CallGetBuildType build] |}.
Proof.
  intros C Hty Ha Hi. clear_checks C. rewrite Hty.
  rewrite (eqb_differ _ _ Ha), (eqb_differ _ _ Hi). reflexivity.
Qed.

Lemma handler_android (env : Env) (r : Request) (token : string)
    (build : Build) (artifactUrl : string) :
  Cleared env r token build artifactUrl ->
  GetBuildType env build = ("android", None) ->
  serve env r =
    handleBinaryResponse env artifactUrl (Name build +:+ ".apk")
                         (resolvedAndTyped r build).
Proof.
  intros C Hty. clear_checks C. rewrite Hty. unfold resolvedAndTyped, buildId.
  rewrite Es. reflexivity.
Qed.

Lemma handler_ios_artifact (env : Env) (r : Request) (token : string)
    (build : Build) (artifactUrl : string) :
  Cleared env r token build artifactUrl ->
  GetBuildType env build = ("ios", None) ->
  isArtifactRequest (URL_ r) = true ->
  serve env r =
    handleBinaryResponse env artifactUrl (Name build +:+ ".ipa")
                         (resolvedAndTyped r build).
Proof.
  intros C Hty Ha. clear_checks C. rewrite Hty, Ha. unfold resolvedAndTyped, buildId.
  rewrite Es. reflexivity.
Qed.

Lemma handler_ios_plist (env : Env) (r : Request) (token : string)
    (build : Build) (artifactUrl : string) :
  Cleared env r token build artifactUrl ->
  GetBuildType env build = ("ios", None) ->
  isArtifactRequest (URL_ r) = false ->
  isPlistRequest (URL_ r) = true ->
  let target := GenerateArtifactUrl env (Name build) token true in
  serve env r =
    Ret tt
      {| rw := http.Write
                 (http.Header_Set http.newResponseWriter "content-type" "application/xml")
                 (ProduceXML env target (Name build));
         trace := [CallGetBuild (buildId r); CallGetBuildType build;
                   CallGenerateArtifactUrl (Name build) token true;
                   CallProduceXML target (Name build)] |}.
Proof.
  intros C Hty Ha Hp'. clear_checks C. rewrite Hty, Ha, Hp'. reflexivity.
Qed.

Lemma handler_ios_landing (env : Env) (r : Request) (token : string)
    (build : Build) (artifactUrl target : string) :
  Cleared env r token build artifactUrl ->
  GetBuildType env build = ("ios", None) ->
  isArtifactRequest (URL_ r) = false ->
  isPlistRequest (URL_ r) = false ->
  encodeItmsUrl env (URL_ r) = Some target ->
  serve env r =
    Ret tt
      {| rw := http.Write
                 (http.Header_Set http.newResponseWriter "content-type" "text/html")
                 (ProduceHTML env target);
         trace := [CallGetBuild (buildId r); CallGetBuildType build;
                   CallProduceHTML target] |}.
Proof.
  intros C Hty Ha Hp' Henc. clear_checks C. rewrite Hty, Ha, Hp', Henc. reflexivity.
Qed.

Lemma handler_ios_panic (env : Env) (r : Request) (token : string)
    (build : Build) (artifactUrl : string) :
  Cleared env r token build artifactUrl ->
  GetBuildType env build = ("ios", None) ->
  isArtifactRequest (URL_ r) = false ->
  isPlistRequest (URL_ r) = false ->
  encodeItmsUrl env (URL_ r) = None ->
  serve env r = Panic (resolvedAndTyped r build).
Proof.
  intros C Hty Ha Hp' Henc. clear_checks C. rewrite Hty, Ha, Hp', Henc.
  unfold resolvedAndTyped, buildId. rewrite Es. reflexivity.
Qed.

Lemma parseToken_cases (u : URL) :
  (exists token, parseToken u = (token, None))
  \/ parseToken u = (EmptyString, Some "invalid request, missing token").
Proof.
  unfold parseToken. destruct (Query u !! "token") as [[|t [|t' ts]]|]; eauto.
Qed.

(** Every run of the handler is one of the listed branches. *)
Lemma serve_outcome (env : Env) (r : Request) : Outcome env r (final (serve env r)).
Proof.
  destruct ((validateURLPath (URL_ r)).1) eqn:Hp.
  2: { rewrite handler_bad_path by exact Hp. now apply out_bad_path. }
  destruct (parseToken_cases (URL_ r)) as [[token Ht] | Ht].
  2: { rewrite (handler_bad_token _ _ _ _ Hp Ht). eapply out_bad_token; eauto. }
  assert (W : WellFormed r token) by (split; assumption).
  destruct (GetBuild env (buildId r)) as [build [e|]] eqn:Hb.
  { destruct (strings.Contains e "not found") eqn:He.
    - rewrite (handler_not_found _ _ _ _ _ W Hb He). eapply out_not_found; eauto.
    - rewrite (handler_resolve_error _ _ _ _ _ W Hb He). eapply out_resolve_error; eauto. }
  assert (R : Resolved env r token build) by (split; assumption).
  destruct (decide (Annotations build !! GetTokenConst env = Some token)) as [Htok|Htok].
  2: { rewrite (handler_forbidden _ _ _ _ R Htok). eapply out_forbidden; eauto. }
  destruct (Annotations build !! GetDownloadConst env) as [artifactUrl|] eqn:Hdl.
  2: { rewrite (handler_missing_annotation _ _ _ _ R Htok) by (left; exact Hdl).
       eapply out_missing_annotation; eauto. }
  destruct (decide (artifactUrl = EmptyString)) as [->|Hne].
  { rewrite (handler_missing_annotation _ _ _ _ R Htok) by (right; exact Hdl).
    eapply out_missing_annotation; eauto. }
  assert (C : Cleared env r token build artifactUrl) by (repeat split; assumption).
  destruct (GetBuildType env build) as [buildType [e|]] eqn:Hty.
  { rewrite (handler_untyped _ _ _ _ _ _ _ C Hty). eapply out_untyped; eauto. }
  destruct (decide (buildType = "android")) as [->|Ha].
  { rewrite (handler_android _ _ _ _ _ C Hty). eapply out_android; eauto. }
  destruct (decide (buildType = "ios")) as [->|Hi].
  2: { rewrite (handler_other_type _ _ _ _ _ _ C Hty Ha Hi). eapply out_other_type; eauto. }
  destruct (isArtifactRequest (URL_ r)) eqn:Hart.
  { rewrite (handler_ios_artifact _ _ _ _ _ C Hty Hart). eapply out_ios_artifact; eauto. }
  destruct (isPlistRequest (URL_ r)) eqn:Hpl.
  { rewrite (handler_ios_plist _ _ _ _ _ C Hty Hart Hpl). eapply out_ios_plist; eauto. }
  destruct (encodeItmsUrl env (URL_ r)) as [target|] eqn:Henc.
  - rewrite (handler_ios_landing _ _ _ _ _ _ C Hty Hart Hpl Henc). eapply out_ios_landing; eauto.
  - rewrite (handler_ios_panic _ _ _ _ _ C Hty Hart Hpl Henc). eapply out_ios_panic; eauto.
Qed.

(** ** The binary path *)

Lemma binary_fetch_failed (env : Env) (artifactUrl extension : string)
    (src : ReadCloser) (e : string) (w : World) :
  StreamArtifact env artifactUrl (AuthToken env) = (src, Some e) ->
  handleBinaryResponse env artifactUrl extension w =
    Ret tt {| rw := http.Error (rw w) "error when streaming atifact"
                               http.StatusInternalServerError;
              trace := trace w ++ [CallStreamArtifact artifactUrl (AuthToken env)] |}.
Proof.
  intros Hs. unfold handleBinaryResponse. run. rewrite Hs. reflexivity.
Qed.

Lemma binary_streamed (env : Env) (artifactUrl extension : string)
    (src : ReadCloser) (w : World) :
  StreamArtifact env artifactUrl (AuthToken env) = (src, None) ->
  handleBinaryResponse env artifactUrl extension w =
    Ret tt {| rw := streamed (rw w) extension src;
              trace := trace w ++ CallStreamArtifact artifactUrl (AuthToken env)
                                  :: streamingCalls src |}.
Proof.
  intros Hs. unfold handleBinaryResponse, io_Copy, defer, streamed, streamingCalls,
    attachment. run. rewrite Hs. run.
  destruct (String.eqb (copied src) EmptyString), (copyErr src), (closeErr src);
    cbn [final rw trace]; rewrite <- ?app_assoc; reflexivity.
Qed.

End handler_facts.

(* ===================================================================== *)
(** * Query maps *)
(* ===================================================================== *)

Module url_facts.
Import url main.

Lemma Add_lookup (v : Values) (key value k : string) :
  Add v key value !! k =
  if decide (key = k) then Some (default [] (v !! key) ++ [value]) else v !! k.
Proof. unfold Add. apply lookup_insert. Qed.

Lemma Add_fresh (v : Values) (key value : string) :
  v !! key = None -> Add v key value = <[key := [value]]> v.
Proof. intros H. unfold Add. now rewrite H. Qed.

Lemma NonEmptyValues_Add (v : Values) (key value : string) :
  NonEmptyValues v -> NonEmptyValues (Add v key value).
Proof.
  intros H k vs. rewrite Add_lookup. case_decide.
  - intros [= <-]. now destruct (default [] (v !! key)).
  - apply H.
Qed.

Lemma NonEmptyValues_addPairs (pairs : list (string * string)) (v : Values) :
  NonEmptyValues v -> NonEmptyValues (addPairs pairs v).
Proof.
  revert v; induction pairs as [|[k x] pairs IH]; intros v H; [exact H |].
  apply IH, NonEmptyValues_Add, H.
Qed.

Lemma NonEmptyValues_Query (u : URL) : NonEmptyValues (Query u).
Proof.
  apply NonEmptyValues_addPairs. intros k vs. now rewrite lookup_empty.
Qed.

(** ** The [range] loop of [encodeItmsUrl] *)

Lemma rangeAddFirst_cons (kv : string * list string)
    (entries : list (string * list string)) (params : Values) (x : string)
    (xs : list string) :
  kv.2 = x :: xs ->
  rangeAddFirst (kv :: entries) params = rangeAddFirst entries (Add params kv.1 x).
Proof. intros E. unfold rangeAddFirst. simpl. now rewrite E. Qed.

(** Over entries with distinct keys, none of them in [params] yet and
    none with an empty slice, the loop does not panic and stores the
    first value of each entry. *)
Lemma rangeAddFirst_spec (entries : list (string * list string)) (params : Values) :
  NoDup (entries.*1) ->
  (forall kv, kv ∈ entries -> kv.2 <> [] /\ params !! kv.1 = None) ->
  rangeAddFirst entries params =
    Some (list_to_map (firstOf <$> entries) ∪ params).
Proof.
  revert params; induction entries as [|[k vs] entries IH]; intros params ND H.
  - simpl. now rewrite (left_id_L ∅ (∪)).
  - rewrite fmap_cons in ND. apply NoDup_cons in ND as [Hk ND]. simpl in Hk.
    destruct (H (k, vs)) as [Hvs Hnone]; [left |]. simpl in Hvs, Hnone.
    destruct vs as [|x xs]; [congruence |].
    rewrite (rangeAddFirst_cons (k, x :: xs) _ _ x xs eq_refl). simpl fst.
    rewrite Add_fresh by exact Hnone. rewrite IH; [| exact ND |].
    + f_equal. rewrite fmap_cons. unfold firstOf at 2. simpl. rewrite take_0.
      rewrite <- insert_union_l. rewrite insert_union_r; [reflexivity |].
      apply not_elem_of_list_to_map_1. rewrite <- list_fmap_compose.
      unfold firstOf, prod_map, compose. simpl. exact Hk.
    + intros kv Hkv. destruct (H kv) as [? ?]; [now right |]. split; [assumption |].
      rewrite lookup_insert_ne; [assumption |].
      intros E. apply Hk. rewrite E. apply list_elem_of_fmap. now exists kv.
Qed.

(** Whatever order the [range] visits the query map in, it builds the
    same map: the first value of every key. *)
Lemma rangeAddFirst_any_order (v : Values) (entries : list (string * list string)) :
  NonEmptyValues v ->
  entries ≡ₚ map_to_list v ->
  rangeAddFirst entries ∅ = Some (firstValues v).
Proof.
  intros NE P. rewrite rangeAddFirst_spec.
  - f_equal. rewrite (right_id_L ∅ (∪)). unfold firstValues.
    rewrite <- (list_to_map_to_list (take 1 <$> v)), map_to_list_fmap.
    apply list_to_map_proper.
    + rewrite <- list_fmap_compose. unfold firstOf, prod_map, compose. simpl.
      change (NoDup (entries.*1)). rewrite P. apply NoDup_fst_map_to_list.
    + unfold firstOf. now rewrite P.
  - rewrite P. apply NoDup_fst_map_to_list.
  - intros [k vs] Hkv. rewrite P in Hkv. apply elem_of_map_to_list in Hkv.
    split; [exact (NE _ _ Hkv) | apply lookup_empty].
Qed.

(** [encodeItmsUrl], in one equation. *)
Lemma encodeItmsUrlIn_eq (env : Env) (entries : list (string * list string))
    (toEncode : URL) :
  entries ≡ₚ map_to_list (Query toEncode) ->
  encodeItmsUrlIn env entries toEncode =
    match Parse env ("https://" +:+ Getenv env "OPERATOR_HOSTNAME") with
    | Some directTo =>
        Some (URL_String (withRawQuery (withPath directTo (Path toEncode))
                                       (Encode (manifestParams toEncode))))
    | None => None
    end.
Proof.
  intros P. unfold encodeItmsUrlIn.
  rewrite (rangeAddFirst_any_order (Query toEncode)); auto using NonEmptyValues_Query.
Qed.

Lemma encodeItmsUrl_eq (env : Env) (toEncode : URL) :
  encodeItmsUrl env toEncode =
    match Parse env ("https://" +:+ Getenv env "OPERATOR_HOSTNAME") with
    | Some directTo =>
        Some (URL_String (withRawQuery (withPath directTo (Path toEncode))
                                       (Encode (manifestParams toEncode))))
    | None => None
    end.
Proof. now apply encodeItmsUrlIn_eq. Qed.

(** ** Queries that list the same parameters in another order *)

Lemma addPairs_distinct (pairs : list (string * string)) (v : Values) :
  NoDup (pairs.*1) ->
  (forall k, k ∈ pairs.*1 -> v !! k = None) ->
  addPairs pairs v = list_to_map (single <$> pairs) ∪ v.
Proof.
  revert v; induction pairs as [|[k x] pairs IH]; intros v ND H.
  - simpl. now rewrite (left_id_L ∅ (∪)).
  - rewrite fmap_cons in ND. apply NoDup_cons in ND as [Hk ND]. simpl in Hk.
    unfold addPairs. simpl. fold (addPairs pairs (Add v k x)).
    rewrite Add_fresh by (apply H; left).
    rewrite IH; [| exact ND |].
    + rewrite <- insert_union_l. rewrite insert_union_r; [reflexivity |].
      apply not_elem_of_list_to_map_1. rewrite <- list_fmap_compose. exact Hk.
    + intros k' Hk'. rewrite lookup_insert_ne; [apply H; now right |].
      intros <-. contradiction.
Qed.

Lemma ParseQuery_permutation (q1 q2 : string) :
  queryPairs q1 ≡ₚ queryPairs q2 ->
  NoDup ((queryPairs q1).*1) ->
  ParseQuery q1 = ParseQuery q2.
Proof.
  intros P ND. unfold ParseQuery.
  assert (ND2 : NoDup ((queryPairs q2).*1)) by now rewrite <- P.
  rewrite !addPairs_distinct by (assumption || (intros; apply lookup_empty)).
  f_equal. apply list_to_map_proper.
  - rewrite <- list_fmap_compose. exact ND.
  - now rewrite P.
Qed.

End url_facts.

(* ===================================================================== *)
(** * Responses *)
(* ===================================================================== *)

Module http_facts.
Import url main handler_facts.

Lemma errorResponse_status (msg : string) (code : Z) :
  http.status (errorResponse msg code) = Some code.
Proof. reflexivity. Qed.

Lemma errorResponse_body (msg : string) (code : Z) :
  http.body (errorResponse msg code) = msg +:+ http.newline.
Proof. reflexivity. Qed.

Lemma final_response (res : Res unit) (w : http.ResponseWriter) (t : list Call) :
  final res = {| rw := w; trace := t |} -> response res = w /\ calls res = t.
Proof. unfold response, calls. intros ->. split; reflexivity. Qed.

Lemma error_Responds (res : Res unit) (msg : string) (code : Z) (t : list Call) :
  final res = {| rw := errorResponse msg code; trace := t |} ->
  Responds res code msg /\ calls res = t.
Proof.
  intros H. apply final_response in H as [Hr Hc]. unfold Responds.
  rewrite Hr. auto using errorResponse_status, errorResponse_body.
Qed.

Lemma Header_Get_Set (w : http.ResponseWriter) (key value : string) :
  http.Header_Get (http.Header_Set w key value) key = value.
Proof.
  unfold http.Header_Get, http.Header_Set, Get. simpl.
  now rewrite lookup_insert_eq.
Qed.

Lemma Header_Get_Set_other (w : http.ResponseWriter) (key value key' : string) :
  http.CanonicalMIMEHeaderKey key <> http.CanonicalMIMEHeaderKey key' ->
  http.Header_Get (http.Header_Set w key value) key' = http.Header_Get w key'.
Proof.
  intros H. unfold http.Header_Get, http.Header_Set, Get. simpl.
  now rewrite lookup_insert_ne.
Qed.

Lemma Header_Get_Write (w : http.ResponseWriter) (data key : string) :
  http.Header_Get (http.Write w data) key = http.Header_Get w key.
Proof. unfold http.Header_Get, http.Write, http.WriteHeader. now destruct (http.status w). Qed.

Lemma Write_fresh (w : http.ResponseWriter) (data : string) :
  http.status w = None ->
  http.status (http.Write w data) = Some http.StatusOK
  /\ http.body (http.Write w data) = http.body w +:+ data.
Proof. intros H. unfold http.Write, http.WriteHeader. rewrite H. auto. Qed.

(** ** The response of the binary path *)

Lemma streamed_headers (w : http.ResponseWriter) (filename : string) (src : ReadCloser) :
  http.Header_Get (streamed w filename src) "content-type" = "octet/stream"
  /\ http.Header_Get (streamed w filename src) "content-disposition"
     = attachment filename.
Proof.
  unfold streamed. destruct (String.eqb (copied src) EmptyString);
    rewrite ?Header_Get_Write; split;
    first [ apply Header_Get_Set
          | rewrite Header_Get_Set_other by (vm_compute; discriminate);
            apply Header_Get_Set ].
Qed.

Lemma streamed_body (w : http.ResponseWriter) (filename : string) (src : ReadCloser) :
  http.body (streamed w filename src) = http.body w +:+ copied src.
Proof.
  unfold streamed. destruct (String.eqb_spec (copied src) EmptyString) as [E|_].
  - rewrite E. simpl. now rewrite strings_facts.append_nil_r.
  - unfold http.Write, http.WriteHeader. simpl. now destruct (http.status w).
Qed.

Lemma streamed_status (w : http.ResponseWriter) (filename : string) (src : ReadCloser) :
  http.status w = None ->
  http.status (streamed w filename src)
  = if String.eqb (copied src) EmptyString then None else Some http.StatusOK.
Proof.
  intros H. unfold streamed. destruct (String.eqb (copied src) EmptyString).
  - exact H.
  - unfold http.Write, http.WriteHeader. simpl. now rewrite H.
Qed.

(** The binary path, started before anything is written, ends with the
    status 500 of a failed fetch, with 200, or with no status written
    (an empty artifact), which the server turns into 200. *)
Lemma binary_response (env : Env) (artifactUrl filename : string) (w : World) :
  rw w = http.newResponseWriter ->
  let w' := final (handleBinaryResponse env artifactUrl filename w) in
  rw w' = errorResponse "error when streaming atifact" http.StatusInternalServerError
  \/ http.status (rw w') = Some http.StatusOK
  \/ http.status (rw w') = None.
Proof.
  intros Hw. destruct (StreamArtifact env artifactUrl (AuthToken env)) as [src [e|]] eqn:Hs.
  - left. rewrite (binary_fetch_failed _ _ _ _ _ _ Hs). simpl. now rewrite Hw.
  - right. rewrite (binary_streamed _ _ _ _ _ Hs). simpl.
    rewrite streamed_status by now rewrite Hw.
    destruct (String.eqb (copied src) EmptyString); auto.
Qed.

(** The calls of the binary path: the fetch, then after a successful
    fetch the copy, the close and their reports.  No renderer. *)
Lemma binary_calls (env : Env) (artifactUrl filename : string) (w : World) (c : Call) :
  c ∈ trace (final (handleBinaryResponse env artifactUrl filename w)) ->
  c ∈ trace w
  \/ c = CallStreamArtifact artifactUrl (AuthToken env)
  \/ (exists src, c = CallCopy src) \/ (exists src, c = CallClose src)
  \/ (exists text, c = CallPrint text).
Proof.
  destruct (StreamArtifact env artifactUrl (AuthToken env)) as [src [e|]] eqn:Hs.
  - rewrite (binary_fetch_failed _ _ _ _ _ _ Hs). simpl.
    rewrite elem_of_app, list_elem_of_singleton. tauto.
  - rewrite (binary_streamed _ _ _ _ _ Hs). simpl. unfold streamingCalls.
    rewrite elem_of_app, elem_of_cons, !elem_of_app.
    destruct (copyErr src), (closeErr src);
      rewrite ?list_elem_of_singleton, ?elem_of_nil; intuition (subst; eauto).
Qed.

(** The guard [len(splitPath) < 2] never fires: no run ends in its
    response. *)
Lemma Outcome_never_unparsed (env : Env) (r : Request) (w : World) :
  Outcome env r w ->
  rw w <> errorResponse "unable to parse build name from path"
                        http.StatusInternalServerError.
Proof.
  intros O E.
  assert (Hst : http.status (rw w) = Some http.StatusInternalServerError)
    by now rewrite E.
  assert (Hbody : http.body (rw w)
                  = "unable to parse build name from path" +:+ http.newline)
    by now rewrite E.
  clear E. destruct O; simpl in Hst, Hbody; try discriminate.
  - pose proof (binary_response env artifactUrl (Name build +:+ ".apk")
                  (resolvedAndTyped r build) eq_refl) as [E | [E | E]];
      simpl in E; rewrite E in *; discriminate.
  - pose proof (binary_response env artifactUrl (Name build +:+ ".ipa")
                  (resolvedAndTyped r build) eq_refl) as [E | [E | E]];
      simpl in E; rewrite E in *; discriminate.
Qed.

End http_facts.

(* ===================================================================== *)
(** * Validation and authorization *)
(* ===================================================================== *)

Section Validation.
Import url main strings_facts path_facts handler_facts http_facts.

Lemma parseToken_not_one (u : URL) :
  length (default [] (Query u !! "token")) <> 1%nat ->
  parseToken u = (EmptyString, Some "invalid request, missing token").
Proof.
  unfold parseToken.
  destruct (Query u !! "token") as [[|t [|t' ts]]|]; simpl; congruence.
Qed.

Lemma Resolved_unique (env : Env) (r : Request) (t1 t2 : string) (b1 b2 : Build) :
  Resolved env r t1 b1 -> Resolved env r t2 b2 -> t1 = t2 /\ b1 = b2.
Proof.
  intros [[_ Ht1] Hb1] [[_ Ht2] Hb2]. split; congruence.
Qed.

Lemma Outcome_forbidden (env : Env) (r : Request) (w : World) :
  Outcome env r w ->
  http.status (rw w) = Some http.StatusForbidden ->
  exists token build,
    Resolved env r token build
    /\ Annotations build !! GetTokenConst env <> Some token.
Proof.
  intros O Hst. destruct O; simpl in Hst; try discriminate.
  - eauto.
  - pose proof (binary_response env artifactUrl (Name build +:+ ".apk")
                  (resolvedAndTyped r build) eq_refl) as [E | [E | E]];
      simpl in E; rewrite E in *; discriminate.
  - pose proof (binary_response env artifactUrl (Name build +:+ ".ipa")
                  (resolvedAndTyped r build) eq_refl) as [E | [E | E]];
      simpl in E; rewrite E in *; discriminate.
Qed.

(** C2, at a request the router really gets: the path [/b1/download/extra]
    is not of the shape [/<segment>/download], yet the validator, whose
    pattern is not anchored, accepts it, and the handler goes on to
    resolve the build [b1] and to stream its artifact instead of
    answering 400. *)
Theorem C2_unanchored_path_is_resolved :
  specPathShape (Path (URL_ sample.extraSegment)) = false
  /\ (validateURLPath (URL_ sample.extraSegment)).1 = true
  /\ head (calls (serve sample.env sample.extraSegment)) = Some (CallGetBuild "b1")
  /\ http.status (response (serve sample.env sample.extraSegment))
     = Some http.StatusOK.
Proof. vm_compute. repeat split; reflexivity. Qed.

(** C3, as the code has it: a request whose query does not hold exactly
    one [token] parameter (none, or several) is answered with 400
    Bad Request, and no collaborator is called. *)
Theorem C3_token_count (env : Env) (r : Request) :
  length (default [] (Query (URL_ r) !! "token")) <> 1%nat ->
  http.status (response (serve env r)) = Some http.StatusBadRequest
  /\ calls (serve env r) = [].
Proof.
  intros H. apply parseToken_not_one in H.
  destruct ((validateURLPath (URL_ r)).1) eqn:Hp.
  - apply (handler_bad_token env) in H; [| exact Hp].
    apply error_Responds in H as [[Hs _] Hc]. auto.
  - apply (handler_bad_path env) in Hp.
    apply error_Responds in Hp as [[Hs _] Hc]. auto.
Qed.

Lemma C3_token_count_witness :
  length (default [] (Query (URL_ sample.twoTokens) !! "token")) <> 1%nat
  /\ http.status (response (serve sample.env sample.twoTokens))
     = Some http.StatusBadRequest
  /\ calls (serve sample.env sample.twoTokens) = [].
Proof.
  split; [vm_compute; discriminate |].
  apply (C3_token_count sample.env sample.twoTokens). vm_compute. discriminate.
Defined.

(** C3 as stated fails for a [token] parameter with an empty value: the
    query [token=] holds one token, the empty string, and the request is
    not refused: the handler resolves the build. *)
Lemma C3_empty_token_counterexample :
  Query (URL_ sample.emptyToken) !! "token" = Some [EmptyString]
  /\ ~ (http.status (response (serve sample.env sample.emptyToken))
        = Some http.StatusBadRequest
        /\ calls (serve sample.env sample.emptyToken) = []).
Proof.
  split; [vm_compute; reflexivity |].
  intros [H _]. vm_compute in H. discriminate.
Qed.

(** C9: a path that the validator accepts splits on [/] into three
    segments at least, so the guard [len(splitPath) < 2] is false when
    the handler reaches it, [splitPath[1]] exists, and no run of the
    handler ends in the response ["unable to parse build name from path"]. *)
Theorem C9_accepted_path_names_a_build (env : Env) (r : Request) :
  (validateURLPath (URL_ r)).1 = true ->
  (3 <= length (strings.Split (Path (URL_ r)) "/"))%nat
  /\ (length (strings.Split (Path (URL_ r)) "/") <? 2)%nat = false
  /\ strings.Split (Path (URL_ r)) "/" !! 1%nat = Some (buildId r)
  /\ response (serve env r)
     <> errorResponse "unable to parse build name from path"
                      http.StatusInternalServerError.
Proof.
  intros Hp. destruct (accepted_split _ Hp) as (s0 & id & s2 & rest & Es).
  unfold buildId. rewrite Es. simpl. repeat split; [lia |].
  apply (Outcome_never_unparsed env r), serve_outcome.
Qed.

(** The build segment may be empty: [//download] is accepted. *)
Lemma C9_accepted_path_witness :
  (validateURLPath (URL_ sample.emptySegment)).1 = true
  /\ buildId sample.emptySegment = EmptyString
  /\ (3 <= length (strings.Split (Path (URL_ sample.emptySegment)) "/"))%nat
  /\ (length (strings.Split (Path (URL_ sample.emptySegment)) "/") <? 2)%nat = false
  /\ strings.Split (Path (URL_ sample.emptySegment)) "/" !! 1%nat
     = Some (buildId sample.emptySegment)
  /\ response (serve sample.env sample.emptySegment)
     <> errorResponse "unable to parse build name from path"
                      http.StatusInternalServerError.
Proof.
  split; [vm_compute; reflexivity |]. split; [vm_compute; reflexivity |].
  apply (C9_accepted_path_names_a_build sample.env sample.emptySegment).
  vm_compute. reflexivity.
Defined.

(** C1, as the code has it: for a request whose build is resolved, the
    handler lets the request past its token check (it does not answer
    403) if and only if the build has the token annotation and its
    value equals the token of the query; that token may be the empty
    string.  When the annotation is absent or differs, the handler
    answers 403 Forbidden with the name of the build, and after the
    resolution it calls no collaborator. *)
Theorem C1_token_check (env : Env) (r : Request) (token : string) (build : Build) :
  Resolved env r token build ->
  (http.status (response (serve env r)) <> Some http.StatusForbidden
   <-> Annotations build !! GetTokenConst env = Some token)
  /\ (Annotations build !! GetTokenConst env <> Some token ->
      Responds (serve env r) http.StatusForbidden
               ("invalid token provided for build " +:+ Name build)
      /\ calls (serve env r) = [CallGetBuild (buildId r)]).
Proof.
  intros R.
  assert (F : Annotations build !! GetTokenConst env <> Some token ->
              Responds (serve env r) http.StatusForbidden
                       ("invalid token provided for build " +:+ Name build)
              /\ calls (serve env r) = [CallGetBuild (buildId r)]).
  { intros Hne. apply error_Responds. eapply handler_forbidden; eassumption. }
  split; [| exact F]. split.
  - intros Hst.
    destruct (decide (Annotations build !! GetTokenConst env = Some token))
      as [E|Hne]; [exact E |].
    destruct (F Hne) as [[Hs _] _]. contradiction.
  - intros Htok Hst.
    destruct (Outcome_forbidden env r _ (serve_outcome env r) Hst)
      as (token' & build' & R' & Hne).
    destruct (Resolved_unique _ _ _ _ _ _ R R') as [<- <-]. contradiction.
Qed.

Lemma C1_token_check_witness :
  Resolved sample.env sample.wrongToken "wrong"
           (sample.annotated "build42" "right" "http://store/a.bin")
  /\ Responds (serve sample.env sample.wrongToken) http.StatusForbidden
              "invalid token provided for build build42"
  /\ calls (serve sample.env sample.wrongToken) = [CallGetBuild "build42"].
Proof.
  assert (R : Resolved sample.env sample.wrongToken "wrong"
                (sample.annotated "build42" "right" "http://store/a.bin"))
    by (repeat split; vm_compute; reflexivity).
  split; [exact R |].
  apply (C1_token_check sample.env sample.wrongToken "wrong" _ R).
  vm_compute. discriminate.
Defined.

(** C1 as stated fails on the empty token: for the build [blank], whose
    token annotation is the empty string, the query [token=] is let
    past the token check (the artifact is streamed, status 200) although
    the token of the query is empty. *)
Lemma C1_empty_token_counterexample :
  Resolved sample.env sample.emptyToken EmptyString
           (sample.annotated "blank" EmptyString "http://store/a.bin")
  /\ ~ (http.status (response (serve sample.env sample.emptyToken))
          <> Some http.StatusForbidden
        <-> (EmptyString <> EmptyString
             /\ Annotations (sample.annotated "blank" EmptyString "http://store/a.bin")
                  !! GetTokenConst sample.env = Some EmptyString)).
Proof.
  split; [repeat split; vm_compute; reflexivity |].
  intros [H _]. destruct H as [H _]; [vm_compute; discriminate | now apply H].
Qed.

(** C5, as the code has it: on a well-formed request, a resolution
    error whose text contains ["not found"] is answered with 404 and
    the build identifier of the path; any other resolution error with
    500; and when the build is resolved and its token check passes, an
    artifact-location annotation that is absent or empty is answered
    with 500 ["missing annotation on build object"]. *)
Theorem C5_resolution_failures (env : Env) (r : Request) (token : string)
    (build : Build) :
  WellFormed r token ->
  strings.Split (Path (URL_ r)) "/" !! 1%nat = Some (buildId r)
  /\ (forall e, GetBuild env (buildId r) = (build, Some e) ->
      strings.Contains e "not found" = true ->
      Responds (serve env r) http.StatusNotFound
               ("no resources found for build " +:+ buildId r))
  /\ (forall e, GetBuild env (buildId r) = (build, Some e) ->
      strings.Contains e "not found" = false ->
      Responds (serve env r) http.StatusInternalServerError
               ("error fetching build " +:+ Name build))
  /\ (GetBuild env (buildId r) = (build, None) ->
      Annotations build !! GetTokenConst env = Some token ->
      Annotations build !! GetDownloadConst env = None
      \/ Annotations build !! GetDownloadConst env = Some EmptyString ->
      Responds (serve env r) http.StatusInternalServerError
               "missing annotation on build object").
Proof.
  intros W. split; [| split; [| split]].
  - destruct W as [Hp _]. destruct (accepted_split _ Hp) as (s0 & id & s2 & rest & Es).
    unfold buildId. now rewrite Es.
  - intros e Hb He. eapply error_Responds. eapply handler_not_found; eassumption.
  - intros e Hb He. eapply error_Responds. eapply handler_resolve_error; eassumption.
  - intros Hb Htok Hdl. eapply error_Responds.
    eapply handler_missing_annotation; [split | |]; eassumption.
Qed.

Lemma C5_resolution_failures_witness :
  WellFormed sample.unknownBuild "right"
  /\ Responds (serve sample.env sample.unknownBuild) http.StatusNotFound
              "no resources found for build nope".
Proof.
  assert (W : WellFormed sample.unknownBuild "right")
    by (split; vm_compute; reflexivity).
  split; [exact W |].
  destruct (C5_resolution_failures sample.env sample.unknownBuild "right"
              sample.noBuild W) as (_ & H & _).
  apply (H "build not found"); vm_compute; reflexivity.
Defined.

(** C5 as stated fails when the token check does not pass: the build
    [bare] is resolved and has no artifact-location annotation, yet the
    request is answered with 403, not with 500: the token check comes
    first. *)
Lemma C5_unauthorized_counterexample :
  GetBuild sample.env (buildId sample.bareBuild)
  = ({| Name := "bare"; Annotations := ∅ |}, None)
  /\ Annotations {| Name := "bare"; Annotations := ∅ |}
       !! GetDownloadConst sample.env = None
  /\ ~ Responds (serve sample.env sample.bareBuild) http.StatusInternalServerError
                "missing annotation on build object".
Proof.
  split; [vm_compute; reflexivity |]. split; [vm_compute; reflexivity |].
  intros [H _]. vm_compute in H. discriminate.
Qed.

End Validation.

(* ===================================================================== *)
(** * Dispatch *)
(* ===================================================================== *)

Section Dispatch.
Import url main strings_facts path_facts handler_facts http_facts url_facts.

(** The manifest URL is built whenever [url.Parse] accepts the configured
    host name: the loop over the query never panics. *)
Lemma encodeItmsUrl_returns (env : Env) (u directTo : URL) :
  Parse env ("https://" +:+ Getenv env "OPERATOR_HOSTNAME") = Some directTo ->
  exists target, encodeItmsUrl env u = Some target.
Proof. intros H. rewrite encodeItmsUrl_eq, H. eauto. Qed.


(** What a run that is the binary path does after a successful fetch: the
    two headers, the bytes of the source as the body, 200, and the fetch,
    the copy and the close as its calls. *)
Lemma binary_effects (env : Env) (r : Request) (build : Build)
    (artifactUrl filename : string) (src : ReadCloser) :
  serve env r = handleBinaryResponse env artifactUrl filename (resolvedAndTyped r build) ->
  StreamArtifact env artifactUrl (AuthToken env) = (src, None) ->
  http.Header_Get (response (serve env r)) "content-type" = "octet/stream"
  /\ http.Header_Get (response (serve env r)) "content-disposition"
     = attachment filename
  /\ http.body (response (serve env r)) = copied src
  /\ http.StatusCode (response (serve env r)) = http.StatusOK
  /\ calls (serve env r)
     = [CallGetBuild (buildId r); CallGetBuildType build;
        CallStreamArtifact artifactUrl (AuthToken env)] ++ streamingCalls src.
Proof.
  intros E Hs. unfold response, calls. rewrite E, (binary_streamed _ _ _ _ _ Hs).
  cbn [final rw trace resolvedAndTyped].
  destruct (streamed_headers http.newResponseWriter filename src) as [H1 H2].
  split; [exact H1 |]. split; [exact H2 |]. split; [apply streamed_body |].
  split; [| reflexivity].
  unfold http.StatusCode. rewrite streamed_status by reflexivity.
  now destruct (String.eqb (copied src) EmptyString).
Qed.

(** And after a failed fetch: 500 with the fixed text, the fetch its only
    call. *)
Lemma binary_refusal (env : Env) (r : Request) (build : Build)
    (artifactUrl filename : string) (src : ReadCloser) (e : string) :
  serve env r = handleBinaryResponse env artifactUrl filename (resolvedAndTyped r build) ->
  StreamArtifact env artifactUrl (AuthToken env) = (src, Some e) ->
  Responds (serve env r) http.StatusInternalServerError "error when streaming atifact"
  /\ calls (serve env r)
     = [CallGetBuild (buildId r); CallGetBuildType build;
        CallStreamArtifact artifactUrl (AuthToken env)].
Proof.
  intros E Hs. eapply error_Responds.
  rewrite E, (binary_fetch_failed _ _ _ _ _ _ Hs). reflexivity.
Qed.

(** A run that is the binary path calls neither renderer. *)
Lemma binary_renders_nothing (env : Env) (r : Request) (build : Build)
    (artifactUrl filename : string) (c : Call) :
  serve env r = handleBinaryResponse env artifactUrl filename (resolvedAndTyped r build) ->
  c ∈ calls (serve env r) ->
  (forall target name, c <> CallProduceXML target name)
  /\ (forall name tok plist, c <> CallGenerateArtifactUrl name tok plist)
  /\ (forall target, c <> CallProduceHTML target).
Proof.
  intros E Hc. unfold calls in Hc. rewrite E in Hc.
  apply binary_calls in Hc. simpl in Hc.
  rewrite !elem_of_cons, elem_of_nil in Hc.
  repeat split; intros; intro; subst c;
    destruct Hc as [[|[|[]]] | [| [[? ?] | [[? ?] | [? ?]]]]]; discriminate.
Qed.

(** The landing page, and the panic in its place when [url.Parse] refuses
    the configured host name. *)
Lemma landing_or_panic (env : Env) (r : Request) (token : string) (build : Build)
    (artifactUrl : string) :
  Cleared env r token build artifactUrl ->
  GetBuildType env build = ("ios", None) ->
  isArtifactRequest (URL_ r) = false ->
  isPlistRequest (URL_ r) = false ->
  (forall directTo,
     Parse env ("https://" +:+ Getenv env "OPERATOR_HOSTNAME") = Some directTo ->
     exists target,
       encodeItmsUrl env (URL_ r) = Some target
       /\ http.Header_Get (response (serve env r)) "content-type" = "text/html"
       /\ http.status (response (serve env r)) = Some http.StatusOK
       /\ http.body (response (serve env r)) = ProduceHTML env target
       /\ calls (serve env r)
          = [CallGetBuild (buildId r); CallGetBuildType build; CallProduceHTML target])
  /\ (Parse env ("https://" +:+ Getenv env "OPERATOR_HOSTNAME") = None ->
      returns (serve env r) = false
      /\ response (serve env r) = http.newResponseWriter
      /\ calls (serve env r) = [CallGetBuild (buildId r); CallGetBuildType build]).
Proof.
  intros C Hty Ha Hp. split.
  - intros directTo Hparse.
    destruct (encodeItmsUrl_returns env (URL_ r) directTo Hparse) as [target Henc].
    exists target. split; [exact Henc |].
    pose proof (handler_ios_landing _ _ _ _ _ _ C Hty Ha Hp Henc) as E.
    unfold response, calls. rewrite E. cbn [final rw trace].
    rewrite Header_Get_Write, Header_Get_Set. auto.
  - intros Hparse.
    assert (Henc : encodeItmsUrl env (URL_ r) = None)
      by now rewrite encodeItmsUrl_eq, Hparse.
    unfold response, calls.
    rewrite (handler_ios_panic _ _ _ _ _ C Hty Ha Hp Henc). auto.
Qed.




(** C10, as the code has it: for an ios build, a request whose first
    [artifact] value is [true] goes down the binary path, whatever its
    [plist] value, so also when both are [true]: the handler fetches the
    artifact and calls neither renderer; once the fetch succeeded it sends
    the bytes as [<name>.ipa], and after a failed fetch it answers 500.
    With any other [artifact] value, the exact [plist] value [true] gets
    the manifest.  With any other value of both, in whatever letter case,
    the handler takes the landing-page branch without a fetch: it renders
    the landing page provided that [url.Parse] accepts the configured host
    name, and panics with nothing sent when it does not. *)
Theorem C10_intent_flags (env : Env) (r : Request) (token : string) (build : Build)
    (artifactUrl : string) :
  Cleared env r token build artifactUrl ->
  GetBuildType env build = ("ios", None) ->
  (Get (Query (URL_ r)) "artifact" = "true" ->
   (forall c, c ∈ calls (serve env r) ->
      (forall target name, c <> CallProduceXML target name)
      /\ (forall name tok plist, c <> CallGenerateArtifactUrl name tok plist)
      /\ (forall target, c <> CallProduceHTML target))
   /\ (forall src,
         StreamArtifact env artifactUrl (AuthToken env) = (src, None) ->
         http.Header_Get (response (serve env r)) "content-type" = "octet/stream"
         /\ http.Header_Get (response (serve env r)) "content-disposition"
            = attachment (Name build +:+ ".ipa")
         /\ http.body (response (serve env r)) = copied src
         /\ http.StatusCode (response (serve env r)) = http.StatusOK
         /\ calls (serve env r)
            = [CallGetBuild (buildId r); CallGetBuildType build;
               CallStreamArtifact artifactUrl (AuthToken env)] ++ streamingCalls src)
   /\ (forall src e,
         StreamArtifact env artifactUrl (AuthToken env) = (src, Some e) ->
         Responds (serve env r) http.StatusInternalServerError
                  "error when streaming atifact"
         /\ calls (serve env r)
            = [CallGetBuild (buildId r); CallGetBuildType build;
               CallStreamArtifact artifactUrl (AuthToken env)]))
  /\ (Get (Query (URL_ r)) "artifact" <> "true" ->
      Get (Query (URL_ r)) "plist" = "true" ->
      http.Header_Get (response (serve env r)) "content-type" = "application/xml"
      /\ http.body (response (serve env r))
         = ProduceXML env (GenerateArtifactUrl env (Name build) token true) (Name build)
      /\ calls (serve env r)
         = [CallGetBuild (buildId r); CallGetBuildType build;
            CallGenerateArtifactUrl (Name build) token true;
            CallProduceXML (GenerateArtifactUrl env (Name build) token true)
                           (Name build)])
  /\ (Get (Query (URL_ r)) "artifact" <> "true" ->
      Get (Query (URL_ r)) "plist" <> "true" ->
      (forall directTo,
         Parse env ("https://" +:+ Getenv env "OPERATOR_HOSTNAME") = Some directTo ->
         exists target,
           encodeItmsUrl env (URL_ r) = Some target
           /\ http.Header_Get (response (serve env r)) "content-type" = "text/html"
           /\ http.status (response (serve env r)) = Some http.StatusOK
           /\ http.body (response (serve env r)) = ProduceHTML env target
           /\ calls (serve env r)
              = [CallGetBuild (buildId r); CallGetBuildType build;
                 CallProduceHTML target])
      /\ (Parse env ("https://" +:+ Getenv env "OPERATOR_HOSTNAME") = None ->
          returns (serve env r) = false
          /\ response (serve env r) = http.newResponseWriter
          /\ calls (serve env r)
             = [CallGetBuild (buildId r); CallGetBuildType build])).
Proof.
  intros C Hty. split; [| split].
  - intros Ha. apply String.eqb_eq in Ha.
    pose proof (handler_ios_artifact _ _ _ _ _ C Hty Ha) as E.
    split; [| split].
    + intros c Hc. exact (binary_renders_nothing _ _ _ _ _ _ E Hc).
    + intros src Hs. exact (binary_effects _ _ _ _ _ _ E Hs).
    + intros src e Hs. exact (binary_refusal _ _ _ _ _ _ _ E Hs).
  - intros Ha Hp. apply String.eqb_neq in Ha. apply String.eqb_eq in Hp.
    pose proof (handler_ios_plist _ _ _ _ _ C Hty Ha Hp) as E. cbv zeta in E.
    unfold response, calls. rewrite E. cbn [final rw trace].
    rewrite Header_Get_Write, Header_Get_Set. auto.
  - intros Ha Hp. apply String.eqb_neq in Ha, Hp.
    exact (landing_or_panic _ _ _ _ _ C Hty Ha Hp).
Qed.

Lemma C10_intent_flags_witness :
  Cleared sample.env sample.iosBoth "right"
          (sample.annotated "ios7" "right" "http://store/a.ipa") "http://store/a.ipa"
  /\ GetBuildType sample.env (sample.annotated "ios7" "right" "http://store/a.ipa")
     = ("ios", None)
  /\ Get (Query (URL_ sample.iosBoth)) "artifact" = "true"
  /\ Get (Query (URL_ sample.iosBoth)) "plist" = "true"
  /\ http.Header_Get (response (serve sample.env sample.iosBoth)) "content-disposition"
     = attachment "ios7.ipa"
  /\ http.body (response (serve sample.env sample.iosBoth)) = "PK-bytes"
  /\ forall target name,
       CallProduceXML target name ∉ calls (serve sample.env sample.iosBoth).
Proof.
  assert (C : Cleared sample.env sample.iosBoth "right"
                (sample.annotated "ios7" "right" "http://store/a.ipa")
                "http://store/a.ipa")
    by (repeat split; vm_compute; (reflexivity || discriminate)).
  assert (A : Get (Query (URL_ sample.iosBoth)) "artifact" = "true")
    by (vm_compute; reflexivity).
  split; [exact C |]. split; [reflexivity |].
  split; [exact A |]. split; [vm_compute; reflexivity |].
  destruct (C10_intent_flags sample.env sample.iosBoth "right" _ _ C eq_refl)
    as [H _].
  destruct (H A) as (N & S & _).
  destruct (S _ eq_refl) as (_ & H2 & H3 & _).
  split; [exact H2 |]. split; [exact H3 |].
  intros target name Hin. destruct (N _ Hin) as [X _]. exact (X target name eq_refl).
Defined.

(** C10 as stated fails for its last part when [url.Parse] refuses the
    configured host name.  With [OPERATOR_HOSTNAME] set to [bad host],
    the authorized ios request
    [/ios7/download?token=right&plist=TRUE&artifact=True] has values
    other than [true] for both intents; it does not end in the landing
    page: the handler panics in [encodeItmsUrl] with nothing sent and no
    renderer called. *)
Lemma C10_unparsable_host_counterexample :
  Cleared sample.envBadHost sample.iosShouting "right"
          (sample.annotated "ios7" "right" "http://store/a.ipa") "http://store/a.ipa"
  /\ GetBuildType sample.envBadHost
       (sample.annotated "ios7" "right" "http://store/a.ipa") = ("ios", None)
  /\ Get (Query (URL_ sample.iosShouting)) "artifact" = "True"
  /\ Get (Query (URL_ sample.iosShouting)) "plist" = "TRUE"
  /\ Parse sample.envBadHost
       ("https://" +:+ Getenv sample.envBadHost "OPERATOR_HOSTNAME") = None
  /\ returns (serve sample.envBadHost sample.iosShouting) = false
  /\ http.Header_Get (response (serve sample.envBadHost sample.iosShouting))
       "content-type" <> "text/html"
  /\ response (serve sample.envBadHost sample.iosShouting) = http.newResponseWriter
  /\ forall target,
       CallProduceHTML target
       ∉ calls (serve sample.envBadHost sample.iosShouting).
Proof.
  split; [repeat split; vm_compute; (reflexivity || discriminate) |].
  split; [reflexivity |].
  split; [vm_compute; reflexivity |]. split; [vm_compute; reflexivity |].
  split; [vm_compute; reflexivity |]. split; [vm_compute; reflexivity |].
  split; [vm_compute; discriminate |]. split; [vm_compute; reflexivity |].
  intros target Hin.
  assert (E : calls (serve sample.envBadHost sample.iosShouting)
              = [CallGetBuild "ios7";
                 CallGetBuildType (sample.annotated "ios7" "right" "http://store/a.ipa")])
    by (vm_compute; reflexivity).
  rewrite E in Hin. rewrite !elem_of_cons, elem_of_nil in Hin.
  destruct Hin as [|[|[]]]; discriminate.
Qed.

End Dispatch.

(* ===================================================================== *)
(** * The binary response *)
(* ===================================================================== *)

Section Binary.
Import url main handler_facts http_facts.

(** X13: after a successful fetch the stream is closed, after the copy, whether
    the copy reached the end or broke off. *)
Lemma binary_closes_stream (env : Env) (artifactUrl filename : string)
    (src : ReadCloser) (w : World) :
  StreamArtifact env artifactUrl (AuthToken env) = (src, None) ->
  exists before after,
    trace (final (handleBinaryResponse env artifactUrl filename w))
    = trace w ++ before ++ CallClose src :: after
    /\ CallCopy src ∈ before
    /\ (forall s, CallClose s ∉ before) /\ (forall s, CallClose s ∉ after).
Proof.
  intros Hs. rewrite (binary_streamed _ _ _ _ _ Hs). cbn [final trace].
  unfold streamingCalls.
  exists (CallStreamArtifact artifactUrl (AuthToken env) :: CallCopy src ::
          match copyErr src with
          | Some _ => [CallPrint ("error writing download of application binary"
                                  +:+ http.newline)]
          | None => []
          end),
         (match closeErr src with
          | Some e => [CallPrint ("error. failed to close file handle. could be leaking resources "
                                  +:+ e)]
          | None => []
          end).
  split; [| split; [| split]].
  - destruct (copyErr src), (closeErr src); reflexivity.
  - rewrite !elem_of_cons. auto.
  - intros s. destruct (copyErr src);
      rewrite !not_elem_of_cons, elem_of_nil; intuition discriminate.
  - intros s. destruct (closeErr src);
      rewrite ?not_elem_of_cons, elem_of_nil; intuition discriminate.
Qed.

(** X14: a copy that breaks off changes nothing in what was sent: the response
    is the one of the bytes copied so far, and no error response follows. *)
Lemma binary_copy_failure_is_silent (env : Env) (artifactUrl filename : string)
    (src : ReadCloser) (e : string) (w : World) :
  StreamArtifact env artifactUrl (AuthToken env) = (src, None) ->
  copyErr src = Some e ->
  rw (final (handleBinaryResponse env artifactUrl filename w))
  = streamed (rw w) filename src
  /\ CallPrint ("error writing download of application binary" +:+ http.newline)
     ∈ trace (final (handleBinaryResponse env artifactUrl filename w)).
Proof.
  intros Hs He. rewrite (binary_streamed _ _ _ _ _ Hs). cbn [final rw trace].
  split; [reflexivity |].
  unfold streamingCalls. rewrite He.
  rewrite elem_of_app, elem_of_cons, !elem_of_app, !list_elem_of_singleton. auto.
Qed.

(** X15: the response to a failed fetch is the same whatever the artifact URL
    and the error are. *)
Lemma binary_fetch_failure_is_opaque (env : Env) (url1 url2 filename1 filename2 : string)
    (src1 src2 : ReadCloser) (e1 e2 : string) (w : World) :
  StreamArtifact env url1 (AuthToken env) = (src1, Some e1) ->
  StreamArtifact env url2 (AuthToken env) = (src2, Some e2) ->
  rw (final (handleBinaryResponse env url1 filename1 w))
  = rw (final (handleBinaryResponse env url2 filename2 w)).
Proof.
  intros H1 H2.
  now rewrite (binary_fetch_failed _ _ _ _ _ _ H1), (binary_fetch_failed _ _ _ _ _ _ H2).
Qed.

(** C8, at a fetch that fails: the handler answers 500, and the text it
    sends is ["error when streaming atifact"], which is not the message
    ["error when streaming artifact"]. *)
Theorem C8_fetch_failure_message :
  http.status (rw (final (handleBinaryResponse sample.env "http://store/gone.bin"
                                               "gone.apk" start)))
  = Some http.StatusInternalServerError
  /\ http.body (rw (final (handleBinaryResponse sample.env "http://store/gone.bin"
                                                "gone.apk" start)))
     = "error when streaming atifact" +:+ http.newline
  /\ http.body (rw (final (handleBinaryResponse sample.env "http://store/gone.bin"
                                                "gone.apk" start)))
     <> "error when streaming artifact" +:+ http.newline.
Proof. vm_compute. repeat split; discriminate. Qed.

End Binary.

(* ===================================================================== *)
(** * Escaping and encoding *)
(* ===================================================================== *)

Module encode_facts.
Import url main strings strings_facts url_facts.

Ltac each_byte c :=
  destruct c as [[] [] [] [] [] [] [] []]; vm_compute; try reflexivity; try discriminate; auto.

Lemma unhex_hi (c : ascii) : unhex (upperhex (N_of_ascii c / 16)) = Some (N_of_ascii c / 16)%N.
Proof. each_byte c. Qed.

Lemma unhex_lo (c : ascii) :
  unhex (upperhex (N_of_ascii c mod 16)) = Some (N_of_ascii c mod 16)%N.
Proof. each_byte c. Qed.

Lemma nibbles_join (c : ascii) :
  ascii_of_N (N_of_ascii c / 16 * 16 + N_of_ascii c mod 16) = c.
Proof. each_byte c. Qed.

Lemma unescaped_plain (c : ascii) :
  shouldEscape c encodeQueryComponent = false ->
  Ascii.eqb c "%" = false /\ Ascii.eqb c "+" = false /\ isSeparator c = false.
Proof. each_byte c. Qed.

Lemma hex_not_separator (n : N) : isSeparator (upperhex n) = false.
Proof.
  unfold upperhex. destruct (N.to_nat n) as [|[|[|[|[|[|[|[|[|[|[|[|[|[|[|[|m]]]]]]]]]]]]]]]];
    reflexivity.
Qed.

(** [QueryUnescape] undoes [QueryEscape]. *)
Lemma QueryUnescape_QueryEscape (s : string) : QueryUnescape (QueryEscape s) = Some s.
Proof.
  unfold QueryEscape. induction s as [|c s IH]; [reflexivity |].
  cbn [escape]. destruct (shouldEscape c encodeQueryComponent) eqn:E.
  - destruct (Ascii.eqb_spec c " ") as [->|_].
    + cbn [QueryUnescape]. rewrite IH. reflexivity.
    + cbn [QueryUnescape]. change (Ascii.eqb "%" "%") with true. cbv iota.
      rewrite unhex_hi, unhex_lo, IH, nibbles_join. reflexivity.
  - destruct (unescaped_plain c E) as (E1 & E2 & _).
    cbn [QueryUnescape]. rewrite E1, IH, E2. reflexivity.
Qed.

(** An escaped string holds none of [&], [;] and [=]. *)
Lemma QueryEscape_no_separator (s : string) :
  strings.all (fun c => negb (isSeparator c)) (QueryEscape s) = true.
Proof.
  unfold QueryEscape. induction s as [|c s IH]; [reflexivity |].
  cbn [escape]. destruct (shouldEscape c encodeQueryComponent) eqn:E.
  - destruct (Ascii.eqb c " "); cbn [strings.all]; rewrite ?hex_not_separator, IH;
      reflexivity.
  - destruct (unescaped_plain c E) as (_ & _ & E3).
    cbn [strings.all]. now rewrite E3, IH.
Qed.

Lemma all_app (p : ascii -> bool) (a b : string) :
  strings.all p (a +:+ b) = strings.all p a && strings.all p b.
Proof.
  induction a as [|c a IH]; simpl; [reflexivity |]. now rewrite IH, andb_assoc.
Qed.

Lemma all_impl (p q : ascii -> bool) (s : string) :
  (forall c, p c = true -> q c = true) ->
  strings.all p s = true -> strings.all q s = true.
Proof.
  intros Hpq. induction s as [|c s IH]; simpl; [reflexivity |].
  intros H. apply andb_prop in H as [Hc Hs]. now rewrite (Hpq _ Hc), IH.
Qed.

Lemma Split_none (a : string) (sep : ascii) :
  strings.all (isNot sep) a = true -> Split a sep = [a].
Proof.
  induction a as [|c a IH]; simpl; [reflexivity |]. intros H.
  apply andb_prop in H as [Hc Ha]. unfold isNot in Hc.
  destruct (Ascii.eqb c sep); [discriminate |]. now rewrite IH.
Qed.

Lemma Split_first (a b : string) (sep : ascii) :
  strings.all (isNot sep) a = true ->
  Split (a +:+ String sep b) sep = a :: Split b sep.
Proof.
  induction a as [|c a IH]; simpl.
  - intros _. now rewrite Ascii.eqb_refl.
  - intros H. apply andb_prop in H as [Hc Ha]. unfold isNot in Hc.
    destruct (Ascii.eqb c sep); [discriminate |]. now rewrite IH.
Qed.

Lemma Cut_first (a b : string) (sep : ascii) :
  strings.all (isNot sep) a = true ->
  Cut (a +:+ String sep b) sep = (a, b).
Proof.
  induction a as [|c a IH]; simpl.
  - intros _. now rewrite Ascii.eqb_refl.
  - intros H. apply andb_prop in H as [Hc Ha]. unfold isNot in Hc.
    destruct (Ascii.eqb c sep); [discriminate |]. now rewrite IH.
Qed.

Lemma Contains_byte (s : string) (c : ascii) :
  strings.all (isNot c) s = true -> Contains s (String c EmptyString) = false.
Proof.
  intros H. destruct (Contains s (String c EmptyString)) eqn:E; [| reflexivity].
  apply Contains_spec in E as (a & b & ->).
  rewrite all_app in H. apply andb_prop in H as [_ H]. simpl in H.
  unfold isNot in H. now rewrite Ascii.eqb_refl in H.
Qed.

(** [Split] undoes [Join] on pieces that hold no separator. *)
Lemma Split_Join (pieces : list string) (sep : ascii) :
  pieces <> [] ->
  Forall (fun piece => strings.all (isNot sep) piece = true) pieces ->
  Split (Join pieces (String sep EmptyString)) sep = pieces.
Proof.
  intros Hne H. induction H as [|piece pieces Hp Hps IH]; [congruence |].
  destruct pieces as [|piece' pieces].
  - simpl. now apply Split_none.
  - change (Join (piece :: piece' :: pieces) (String sep EmptyString))
      with (piece +:+ String sep (Join (piece' :: pieces) (String sep EmptyString))).
    rewrite Split_first by exact Hp. now rewrite IH.
Qed.

Lemma escaped_isNot (s : string) (sep : ascii) :
  isSeparator sep = true -> strings.all (isNot sep) (QueryEscape s) = true.
Proof.
  intros Hsep. apply (all_impl (fun c => negb (isSeparator c))).
  - intros c Hc. unfold isNot. destruct (Ascii.eqb_spec c sep) as [->|]; [| reflexivity].
    now rewrite Hsep in Hc.
  - apply QueryEscape_no_separator.
Qed.

Lemma encodePair_isNot (kx : string * string) (sep : ascii) :
  isSeparator sep = true -> sep <> "="%char ->
  strings.all (isNot sep) (encodePair kx) = true.
Proof.
  intros Hsep Hne. unfold encodePair. rewrite all_app, escaped_isNot by exact Hsep.
  simpl. rewrite escaped_isNot by exact Hsep. unfold isNot.
  destruct (Ascii.eqb_spec "=" sep) as [E|]; [now subst | reflexivity].
Qed.

(** [parseQuery] reads an encoded pair back. *)
Lemma parsePair_encodePair (kx : string * string) : parsePair (encodePair kx) = Some kx.
Proof.
  unfold parsePair.
  rewrite (Contains_byte _ ";") by (apply encodePair_isNot; [reflexivity | discriminate]).
  assert (Hne : String.eqb (encodePair kx) EmptyString = false)
    by (unfold encodePair; destruct (QueryEscape kx.1); reflexivity).
  rewrite Hne. unfold encodePair.
  change (QueryEscape kx.1 +:+ "=" +:+ QueryEscape kx.2)
    with (QueryEscape kx.1 +:+ String "=" (QueryEscape kx.2)).
  rewrite Cut_first by (apply escaped_isNot; reflexivity).
  rewrite !QueryUnescape_QueryEscape. now destruct kx.
Qed.

Lemma queryPairs_encoded (pairs : list (string * string)) :
  queryPairs (Join (map encodePair pairs) "&") = pairs.
Proof.
  unfold queryPairs. destruct pairs as [|kx pairs]; [reflexivity |].
  rewrite (Split_Join _ "&").
  - generalize (kx :: pairs). intros l. induction l as [|p l IH]; [reflexivity |].
    change (omap parsePair (map encodePair (p :: l)))
      with (match parsePair (encodePair p) with
            | Some y => y :: omap parsePair (map encodePair l)
            | None => omap parsePair (map encodePair l)
            end).
    now rewrite parsePair_encodePair, IH.
  - discriminate.
  - apply Forall_forall. intros piece Hin. apply list_elem_of_fmap in Hin as (p & -> & _).
    apply encodePair_isNot; [reflexivity | discriminate].
Qed.

Lemma addPairs_app (l1 l2 : list (string * string)) (v : Values) :
  addPairs (l1 ++ l2) v = addPairs l2 (addPairs l1 v).
Proof. apply foldl_app. Qed.

(** The values of one key are collected in their order. *)
Lemma addPairs_one_key (k : string) (xs : list string) (v : Values) :
  xs <> [] ->
  addPairs (map (pair k) xs) v = <[k := default [] (v !! k) ++ xs]> v.
Proof.
  revert v; induction xs as [|x xs IH]; intros v Hne; [congruence |].
  change (addPairs (map (pair k) (x :: xs)) v)
    with (addPairs (map (pair k) xs) (Add v k x)).
  destruct xs as [|x' xs]; [reflexivity |].
  rewrite IH by discriminate. unfold Add.
  rewrite lookup_insert_eq, insert_insert_eq. simpl. now rewrite <- app_assoc.
Qed.

Lemma addPairs_pairsOf (v : Values) (keys : list string) (acc : Values) :
  NonEmptyValues v ->
  NoDup keys ->
  (forall k, k ∈ keys -> is_Some (v !! k) /\ acc !! k = None) ->
  addPairs (pairsOf v keys) acc
  = list_to_map ((fun k => (k, default [] (v !! k))) <$> keys) ∪ acc.
Proof.
  intros NE. revert acc; induction keys as [|k keys IH]; intros acc ND H.
  - simpl. now rewrite (left_id_L ∅ (∪)).
  - apply NoDup_cons in ND as [Hk ND].
    destruct (H k) as [[vs Hvs] Hacc]; [left |].
    unfold pairsOf. simpl. fold (pairsOf v keys). rewrite addPairs_app.
    rewrite Hvs. simpl. rewrite addPairs_one_key by exact (NE _ _ Hvs).
    rewrite Hacc. simpl. rewrite IH; [| exact ND |].
    + rewrite <- insert_union_l. rewrite insert_union_r; [reflexivity |].
      apply not_elem_of_list_to_map_1. rewrite <- list_fmap_compose.
      unfold compose. simpl. now rewrite list_fmap_id.
    + intros k' Hk'. destruct (H k') as [? ?]; [now right |]. split; [assumption |].
      rewrite lookup_insert_ne; [assumption |]. intros <-. contradiction.
Qed.

Lemma sortedKeys_perm (v : Values) : sortedKeys v ≡ₚ elements (dom v).
Proof. apply merge_sort_Permutation. Qed.

Lemma sortedKeys_sorted (v : Values) : Sorted String.le (sortedKeys v).
Proof. unfold sortedKeys. apply Sorted_merge_sort. apply _. Qed.

Lemma sortedKeys_elem (v : Values) (k : string) : k ∈ sortedKeys v <-> is_Some (v !! k).
Proof. now rewrite sortedKeys_perm, elem_of_elements, elem_of_dom. Qed.

(** [ParseQuery] undoes [Encode]: the encoded query parses back to the
    same map. *)
Lemma ParseQuery_Encode (v : Values) : NonEmptyValues v -> ParseQuery (Encode v) = v.
Proof.
  intros NE. unfold ParseQuery, Encode, encodedPairs. rewrite queryPairs_encoded.
  assert (ND : NoDup (sortedKeys v)).
  { rewrite sortedKeys_perm. apply NoDup_elements. }
  rewrite addPairs_pairsOf; [| exact NE | exact ND |].
  - rewrite (right_id_L ∅ (∪)). apply map_eq. intros i.
    destruct (v !! i) as [vs|] eqn:Hi.
    + apply elem_of_list_to_map_1.
      * rewrite <- list_fmap_compose. unfold compose. simpl. now rewrite list_fmap_id.
      * apply list_elem_of_fmap. exists i. rewrite Hi. split; [reflexivity |].
        apply sortedKeys_elem. now rewrite Hi.
    + apply not_elem_of_list_to_map_1. rewrite <- list_fmap_compose.
      unfold compose. simpl. rewrite list_fmap_id, sortedKeys_elem, Hi.
      now intros [? ?].
  - intros k Hk. split; [now apply sortedKeys_elem | apply lookup_empty].
Qed.

End encode_facts.

(* ===================================================================== *)
(** * The manifest-URL builder *)
(* ===================================================================== *)

Section ManifestURL.
Import url main strings_facts url_facts encode_facts.

Lemma NonEmptyValues_firstValues (v : Values) :
  NonEmptyValues v -> NonEmptyValues (firstValues v).
Proof.
  intros NE k vs. unfold firstValues. rewrite lookup_fmap.
  destruct (v !! k) as [ws|] eqn:E; [| discriminate].
  intros [= <-]. specialize (NE k ws E). now destruct ws.
Qed.

Lemma NonEmptyValues_manifestParams (u : URL) : NonEmptyValues (manifestParams u).
Proof.
  apply NonEmptyValues_Add, NonEmptyValues_firstValues, NonEmptyValues_Query.
Qed.

Lemma manifestParams_other (u : URL) (k : string) :
  k <> "plist" -> manifestParams u !! k = take 1 <$> Query u !! k.
Proof.
  intros Hk. unfold manifestParams, firstValues. rewrite Add_lookup.
  case_decide; [congruence |]. apply lookup_fmap.
Qed.

Lemma manifestParams_plist (u : URL) :
  manifestParams u !! "plist"
  = Some (take 1 (default [] (Query u !! "plist")) ++ ["true"]).
Proof.
  unfold manifestParams, firstValues. rewrite Add_lookup.
  case_decide; [| congruence]. rewrite lookup_fmap.
  now destruct (Query u !! "plist").
Qed.

Lemma escape_path_slash (path : string) :
  strings.HasPrefix path "/" = true ->
  strings.HasPrefix (escape path encodePath) "/" = true
  /\ nonEmpty (escape path encodePath) = true
  /\ String.eqb path "*" = false.
Proof.
  destruct path as [|c path]; [discriminate |]. intros H.
  assert (c = "/"%char) as ->.
  { apply prefix_inv in H as [t E]. now injection E. }
  change (escape (String "/" path) encodePath)
    with ("/" +:+ escape path encodePath).
  split; [apply prefix_app | split; reflexivity].
Qed.

(** What [URL.String] prints for a URL with a scheme, a host, a rooted
    path and a query. *)
Lemma URL_String_rooted (scheme host path query : string) :
  nonEmpty scheme = true -> nonEmpty host = true ->
  strings.HasPrefix path "/" = true -> nonEmpty query = true ->
  URL_String (bareURL scheme host path query)
  = scheme +:+ "://" +:+ escape host encodeHost +:+ escape path encodePath
      +:+ "?" +:+ query.
Proof.
  intros Hs Hh Hp Hq. destruct (escape_path_slash path Hp) as (E1 & E2 & E3).
  unfold URL_String, EscapedPath, EscapedFragment, encodes, hasUser, bareURL.
  cbn [Scheme Opaque User Host Path RawPath OmitHost ForceQuery RawQuery Fragment
       RawFragment].
  change (nonEmpty EmptyString) with false. cbn [andb].
  rewrite Hs, Hh, Hq, E3, E1, E2. cbn [orb andb negb].
  assert (nonEmpty ((scheme +:+ ":") +:+ ("//" +:+ "" +:+ escape host encodeHost) +:+ "")
          = true) as -> by now destruct scheme.
  cbn [negb andb]. rewrite !append_assoc, !append_nil_r. reflexivity.
Qed.

Lemma Encode_manifestParams_nonEmpty (u : URL) :
  nonEmpty (Encode (manifestParams u)) = true.
Proof.
  unfold nonEmpty. destruct (String.eqb_spec (Encode (manifestParams u)) EmptyString)
    as [E|]; [| reflexivity].
  pose proof (ParseQuery_Encode _ (NonEmptyValues_manifestParams u)) as R.
  rewrite E in R. pose proof (manifestParams_plist u) as P.
  rewrite <- R in P. discriminate.
Qed.

(** C6: with the host name [gateway.example.com] configured, the builder
    turns [https://host/b1/download?token=abc] into
    [https://gateway.example.com/b1/download?plist=true&token=abc].  In
    general, given that [url.Parse] reads the configured host name as a
    bare host, the builder returns the text of the URL whose scheme is
    [https], whose host is the configured one, whose path is the path of
    the inbound URL and whose query is the encoding of these parameters:
    for every inbound key its first value, and [true] added as the last
    value of [plist].  The encoding lists the keys in sorted order and
    parses back to exactly these parameters; for a rooted path the text
    is scheme, host, escaped path and query in a row. *)
Theorem C6_manifest_url (env : Env) (hostname : string) :
  Getenv env "OPERATOR_HOSTNAME" = hostname ->
  Parse env ("https://" +:+ hostname)
  = Some (bareURL "https" hostname EmptyString EmptyString) ->
  (hostname = "gateway.example.com" ->
   encodeItmsUrl env sample.inbound
   = Some "https://gateway.example.com/b1/download?plist=true&token=abc")
  /\ forall u : URL,
       let out := bareURL "https" hostname (Path u) (Encode (manifestParams u)) in
       encodeItmsUrl env u = Some (URL_String out)
       /\ (forall k, k <> "plist" -> manifestParams u !! k = take 1 <$> Query u !! k)
       /\ manifestParams u !! "plist"
          = Some (take 1 (default [] (Query u !! "plist")) ++ ["true"])
       /\ Query out = manifestParams u
       /\ Sorted String.le (sortedKeys (manifestParams u))
       /\ (nonEmpty hostname = true -> strings.HasPrefix (Path u) "/" = true ->
           URL_String out
           = "https://" +:+ escape hostname encodeHost +:+ escape (Path u) encodePath
               +:+ "?" +:+ Encode (manifestParams u)).
Proof.
  intros Hhost Hparse.
  assert (Eq : forall u, encodeItmsUrl env u
                 = Some (URL_String (bareURL "https" hostname (Path u)
                                             (Encode (manifestParams u))))).
  { intros u. now rewrite encodeItmsUrl_eq, Hhost, Hparse. }
  split.
  - intros ->. rewrite Eq. vm_compute. reflexivity.
  - intros u out. subst out. repeat apply conj.
    + apply Eq.
    + apply manifestParams_other.
    + apply manifestParams_plist.
    + unfold Query. cbn [RawQuery].
      apply ParseQuery_Encode, NonEmptyValues_manifestParams.
    + apply sortedKeys_sorted.
    + intros Hne Hroot.
      apply (URL_String_rooted "https" hostname (Path u));
        [reflexivity | exact Hne | exact Hroot | apply Encode_manifestParams_nonEmpty].
Qed.

Lemma C6_manifest_url_witness :
  Getenv sample.env "OPERATOR_HOSTNAME" = "gateway.example.com"
  /\ Parse sample.env ("https://" +:+ "gateway.example.com")
     = Some (bareURL "https" "gateway.example.com" EmptyString EmptyString)
  /\ encodeItmsUrl sample.env sample.inbound
     = Some "https://gateway.example.com/b1/download?plist=true&token=abc".
Proof.
  split; [reflexivity |]. split; [vm_compute; reflexivity |].
  destruct (C6_manifest_url sample.env "gateway.example.com") as [H _];
    [reflexivity | vm_compute; reflexivity |].
  apply H. reflexivity.
Defined.

(** C7, as the code has it: two inbound URLs with the same path get the
    same manifest URL whenever their queries agree on the first value of
    every key; so do, in particular, two URLs that list the same
    parameters in different orders, no key twice.  And for one URL the
    result does not depend on the order in which the [range] loop visits
    the query map. *)
Theorem C7_order_independent (env : Env) (u1 u2 : URL) :
  Path u1 = Path u2 ->
  (firstValues (Query u1) = firstValues (Query u2) ->
   encodeItmsUrl env u1 = encodeItmsUrl env u2)
  /\ (queryPairs (RawQuery u1) ≡ₚ queryPairs (RawQuery u2) ->
      NoDup ((queryPairs (RawQuery u1)).*1) ->
      encodeItmsUrl env u1 = encodeItmsUrl env u2)
  /\ (forall entries, entries ≡ₚ map_to_list (Query u1) ->
      encodeItmsUrlIn env entries u1 = encodeItmsUrl env u1).
Proof.
  intros Hpath.
  assert (F : firstValues (Query u1) = firstValues (Query u2) ->
              encodeItmsUrl env u1 = encodeItmsUrl env u2).
  { intros Hq. rewrite !encodeItmsUrl_eq. unfold manifestParams.
    now rewrite Hpath, Hq. }
  split; [exact F | split].
  - intros P ND. apply F. unfold Query.
    now rewrite (ParseQuery_permutation _ _ P ND).
  - intros entries P. rewrite encodeItmsUrl_eq. now apply encodeItmsUrlIn_eq.
Qed.

Lemma C7_order_independent_witness :
  Path sample.reordered = Path sample.reorderedSwapped
  /\ queryPairs (RawQuery sample.reordered)
     ≡ₚ queryPairs (RawQuery sample.reorderedSwapped)
  /\ NoDup ((queryPairs (RawQuery sample.reordered)).*1)
  /\ encodeItmsUrl sample.env sample.reordered
     = encodeItmsUrl sample.env sample.reorderedSwapped.
Proof.
  assert (P : queryPairs (RawQuery sample.reordered)
              ≡ₚ queryPairs (RawQuery sample.reorderedSwapped)).
  { change (queryPairs (RawQuery sample.reordered))
      with [("token", "abc"); ("artifact", "true")].
    change (queryPairs (RawQuery sample.reorderedSwapped))
      with [("artifact", "true"); ("token", "abc")].
    apply perm_swap. }
  assert (ND : NoDup ((queryPairs (RawQuery sample.reordered)).*1)).
  { change ((queryPairs (RawQuery sample.reordered)).*1) with ["token"; "artifact"].
    apply NoDup_cons. split; [| apply NoDup_singleton].
    rewrite list_elem_of_singleton. discriminate. }
  split; [reflexivity |]. split; [exact P |]. split; [exact ND |].
  destruct (C7_order_independent sample.env sample.reordered sample.reorderedSwapped
              eq_refl) as (_ & H & _).
  exact (H P ND).
Defined.

(** C7 as stated fails when a key is repeated: [x=1&x=2&token=abc] and
    [x=2&x=1&token=abc] differ only in the order of their parameters, but
    the builder keeps the first value of [x], which is [1] in one and [2]
    in the other. *)
Lemma C7_repeated_key_counterexample :
  Path sample.repeatedParam = Path sample.repeatedSwapped
  /\ queryPairs (RawQuery sample.repeatedParam)
     ≡ₚ queryPairs (RawQuery sample.repeatedSwapped)
  /\ encodeItmsUrl sample.env sample.repeatedParam
     = Some "https://gateway.example.com/b1/download?plist=true&token=abc&x=1"
  /\ encodeItmsUrl sample.env sample.repeatedSwapped
     = Some "https://gateway.example.com/b1/download?plist=true&token=abc&x=2"
  /\ encodeItmsUrl sample.env sample.repeatedParam
     <> encodeItmsUrl sample.env sample.repeatedSwapped.
Proof.
  split; [reflexivity |]. split.
  { change (queryPairs (RawQuery sample.repeatedParam))
      with [("x", "1"); ("x", "2"); ("token", "abc")].
    change (queryPairs (RawQuery sample.repeatedSwapped))
      with [("x", "2"); ("x", "1"); ("token", "abc")].
    apply perm_swap. }
  split; [vm_compute; reflexivity |]. split; [vm_compute; reflexivity |].
  vm_compute. discriminate.
Qed.

End ManifestURL.

(* ===================================================================== *)
(** * The scenarios of the specification, run *)
(* ===================================================================== *)

Section Scenarios.
Import url main.

(** [GET /build42/download?token=right] on an android build: the bytes of
    the artifact, as an attachment named [build42.apk]. *)
Example scenario_android_download :
  http.StatusCode (response (serve sample.env sample.goodAndroid)) = http.StatusOK
  /\ http.Header_Get (response (serve sample.env sample.goodAndroid))
                     "content-disposition"
     = attachment "build42.apk"
  /\ http.body (response (serve sample.env sample.goodAndroid)) = "PK-bytes".
Proof. vm_compute. repeat split; reflexivity. Qed.

(** The same build with [token=wrong]: 403, and the name of the build. *)
Example scenario_wrong_token :
  Responds (serve sample.env sample.wrongToken) http.StatusForbidden
           "invalid token provided for build build42".
Proof. vm_compute. split; reflexivity. Qed.

(** An ios build asked with [plist=true]: the manifest, as XML. *)
Example scenario_ios_manifest :
  http.status (response (serve sample.env sample.iosManifest)) = Some http.StatusOK
  /\ http.Header_Get (response (serve sample.env sample.iosManifest)) "content-type"
     = "application/xml"
  /\ strings.Contains (http.body (response (serve sample.env sample.iosManifest)))
                      "plist=true" = true.
Proof. vm_compute. repeat split; reflexivity. Qed.

(** An ios build asked without a flag: the landing page, which links to
    the manifest URL. *)
Example scenario_ios_landing :
  http.Header_Get (response (serve sample.env sample.iosLanding)) "content-type"
  = "text/html"
  /\ http.body (response (serve sample.env sample.iosLanding))
     = ProduceHTML sample.env
         "https://gateway.example.com/ios7/download?plist=true&token=right".
Proof. vm_compute. split; reflexivity. Qed.

(** [plist=TRUE&artifact=True] switches neither intent on. *)
Example scenario_flags_are_case_sensitive :
  isArtifactRequest (URL_ sample.iosShouting) = false
  /\ isPlistRequest (URL_ sample.iosShouting) = false
  /\ http.Header_Get (response (serve sample.env sample.iosShouting)) "content-type"
     = "text/html".
Proof. vm_compute. repeat split; reflexivity. Qed.

(** An unknown build: 404, and the identifier asked for. *)
Example scenario_unknown_build :
  Responds (serve sample.env sample.unknownBuild) http.StatusNotFound
           "no resources found for build nope".
Proof. vm_compute. split; reflexivity. Qed.

(** A copy that breaks off: the response stays as sent, the failure is
    printed, the stream is closed. *)
Example scenario_broken_copy :
  http.status (response (serve sample.env sample.extraSegment)) = Some http.StatusOK
  /\ http.body (response (serve sample.env sample.extraSegment)) = "PK-"
  /\ last (calls (serve sample.env sample.extraSegment))
     = Some (CallPrint
               "error. failed to close file handle. could be leaking resources already closed").
Proof. vm_compute. repeat split; reflexivity. Qed.

End Scenarios.

(* ===================================================================== *)
(** * More on validation: what the parsers read off a raw request *)
(* ===================================================================== *)

Module query_facts.
Import url main url_facts.

(** A parsed query gives each key the values of its pairs, in order. *)
Lemma addPairs_lookup (pairs : list (string * string)) (v : Values) (k : string) :
  addPairs pairs v !! k
  = match valuesOf k pairs with
    | [] => v !! k
    | xs => Some (default [] (v !! k) ++ xs)
    end.
Proof.
  revert v; induction pairs as [|[k' x] pairs IH]; intros v; [reflexivity |].
  change (addPairs ((k', x) :: pairs) v) with (addPairs pairs (Add v k' x)).
  rewrite IH, Add_lookup. cbn [valuesOf].
  destruct (String.eqb_spec k' k) as [->|Hne].
  - rewrite decide_True by reflexivity.
    destruct (valuesOf k pairs); simpl; [reflexivity |].
    now rewrite <- app_assoc.
  - rewrite decide_False by exact Hne. reflexivity.
Qed.

Lemma Query_lookup (u : URL) (k : string) :
  Query u !! k
  = match valuesOf k (queryPairs (RawQuery u)) with
    | [] => None
    | xs => Some xs
    end.
Proof.
  unfold Query, ParseQuery. rewrite addPairs_lookup, lookup_empty.
  now destruct (valuesOf k (queryPairs (RawQuery u))).
Qed.

Lemma Get_first (u : URL) (k : string) :
  Get (Query u) k = default EmptyString (head (valuesOf k (queryPairs (RawQuery u)))).
Proof.
  unfold Get. rewrite Query_lookup.
  now destruct (valuesOf k (queryPairs (RawQuery u))).
Qed.

End query_facts.

Section RawRequest.
Import url main strings_facts path_facts url_facts encode_facts query_facts.

(** X3: [parseToken] accepts a query exactly when its well-formed pairs hold
    one [token], whose value, empty or not, it returns; every other query
    gets the empty token and the one error text. *)
Theorem parseToken_counts_pairs (u : URL) :
  (forall t, parseToken u = (t, None)
             <-> valuesOf "token" (queryPairs (RawQuery u)) = [t])
  /\ (forall t e, parseToken u = (t, Some e) ->
        t = EmptyString /\ e = "invalid request, missing token"
        /\ length (valuesOf "token" (queryPairs (RawQuery u))) <> 1%nat).
Proof.
  unfold parseToken. rewrite Query_lookup.
  destruct (valuesOf "token" (queryPairs (RawQuery u))) as [|x [|y ys]]; split;
    intros; try split; intros; simplify_eq; auto.
Qed.

(** X4: the two intents look at the first well-formed pair of their key only,
    and want its value to be [true] to the letter. *)
Theorem intents_read_first_pair (u : URL) :
  (isArtifactRequest u = true
   <-> head (valuesOf "artifact" (queryPairs (RawQuery u))) = Some "true")
  /\ (isPlistRequest u = true
      <-> head (valuesOf "plist" (queryPairs (RawQuery u))) = Some "true").
Proof.
  unfold isArtifactRequest, isPlistRequest. rewrite !String.eqb_eq, !Get_first.
  split.
  - destruct (valuesOf "artifact" (queryPairs (RawQuery u))); simpl;
      split; intros; simplify_eq; auto.
  - destruct (valuesOf "plist" (queryPairs (RawQuery u))); simpl;
      split; intros; simplify_eq; auto.
Qed.

(** X1: the validator looks for its pattern anywhere in the path: a path is
    accepted exactly when it holds a slash that is followed, after bytes
    other than line feeds, by [/download]; so an accepted path stays
    accepted with anything put before or after it. *)
Theorem validateURLPath_is_a_search (u : URL) :
  ((validateURLPath u).1 = true <->
   exists before seg after,
     Path u = before +:+ "/" +:+ seg +:+ "/download" +:+ after
     /\ strings.all regexp.notNewline seg = true)
  /\ ((validateURLPath u).1 = true ->
      forall before after,
        (validateURLPath (withPath u (before +:+ Path u +:+ after))).1 = true)
  /\ (validateURLPath u).2 = None.
Proof.
  split; [apply validateURLPath_spec | split; [| reflexivity]].
  intros H before after. apply validateURLPath_spec in H as (a & seg & b & E & Hseg).
  apply validateURLPath_spec. exists (before +:+ a), seg, (b +:+ after).
  split; [| exact Hseg]. cbn [withPath Path]. rewrite E.
  rewrite !append_assoc. reflexivity.
Qed.

Lemma validateURLPath_is_a_search_witness :
  (validateURLPath (URL_ sample.goodAndroid)).1 = true
  /\ (validateURLPath (withPath (URL_ sample.goodAndroid)
                                ("/v2" +:+ Path (URL_ sample.goodAndroid) +:+ "s.txt"))).1
     = true.
Proof.
  split; [vm_compute; reflexivity |].
  destruct (validateURLPath_is_a_search (URL_ sample.goodAndroid)) as (_ & H & _).
  apply H. vm_compute. reflexivity.
Defined.

(** X2: a path of the intended shape, [/<segment>/download] with a segment
    free of slashes and line feeds, is accepted, and the build that the
    handler resolves is that segment.  In any rooted path the build is
    the first segment, whatever follows it. *)
Theorem shaped_path_names_its_segment (r : Request) (seg rest : string) :
  strings.all (isNot "/") seg = true ->
  Path (URL_ r) = "/" +:+ seg +:+ "/" +:+ rest ->
  buildId r = seg
  /\ (rest = "download" -> strings.all regexp.notNewline seg = true ->
      (validateURLPath (URL_ r)).1 = true
      /\ specPathShape (Path (URL_ r)) = nonEmpty seg).
Proof.
  intros Hseg E. unfold buildId, specPathShape. rewrite E.
  change ("/" +:+ seg +:+ "/" +:+ rest) with (String "/" (seg +:+ String "/" rest)).
  change (strings.Split (String "/" (seg +:+ String "/" rest)) "/")
    with (EmptyString :: strings.Split (seg +:+ String "/" rest) "/").
  rewrite Split_first by exact Hseg. split; [reflexivity |].
  intros -> Hnl. split.
  - apply validateURLPath_spec. exists EmptyString, seg, EmptyString.
    split; [| exact Hnl]. rewrite E. simpl. reflexivity.
  - change (strings.Split "download" "/") with ["download"].
    cbv iota. rewrite String.eqb_refl. cbn [andb]. apply andb_true_r.
Qed.

Lemma shaped_path_names_its_segment_witness :
  strings.all (isNot "/") "build42" = true
  /\ Path (URL_ sample.goodAndroid) = "/" +:+ "build42" +:+ "/" +:+ "download"
  /\ buildId sample.goodAndroid = "build42"
  /\ (validateURLPath (URL_ sample.goodAndroid)).1 = true.
Proof.
  split; [reflexivity |]. split; [reflexivity |].
  destruct (shaped_path_names_its_segment sample.goodAndroid "build42" "download")
    as [H1 H2]; [reflexivity | reflexivity |].
  split; [exact H1 |]. apply H2; reflexivity.
Defined.

End RawRequest.

(* ===================================================================== *)
(** * More on the handler: what a run never does *)
(* ===================================================================== *)

Module run_facts.
Import url main strings_facts path_facts handler_facts http_facts url_facts.

(** The binary path adds its own calls to the trace, the fetch first. *)
Lemma binary_trace (env : Env) (artifactUrl filename : string) (w : World) :
  exists extra,
    trace (final (handleBinaryResponse env artifactUrl filename w))
    = trace w ++ CallStreamArtifact artifactUrl (AuthToken env) :: extra
    /\ forallb binaryCall extra = true
    /\ (forall a t, CallStreamArtifact a t ∉ extra).
Proof.
  destruct (StreamArtifact env artifactUrl (AuthToken env)) as [src [e|]] eqn:Hs.
  - rewrite (binary_fetch_failed _ _ _ _ _ _ Hs). exists []. cbn [final trace].
    split; [reflexivity | split; [reflexivity |]].
    intros a t. apply not_elem_of_nil.
  - rewrite (binary_streamed _ _ _ _ _ Hs). exists (streamingCalls src).
    cbn [final trace]. unfold streamingCalls.
    split; [reflexivity | split].
    + destruct (copyErr src), (closeErr src); reflexivity.
    + intros a t. destruct (copyErr src), (closeErr src); cbn [app];
        rewrite !not_elem_of_cons, elem_of_nil; intuition discriminate.
Qed.

Lemma binary_returns (env : Env) (artifactUrl filename : string) (w : World) :
  returns (handleBinaryResponse env artifactUrl filename w) = true.
Proof.
  destruct (StreamArtifact env artifactUrl (AuthToken env)) as [src [e|]] eqn:Hs.
  - now rewrite (binary_fetch_failed _ _ _ _ _ _ Hs).
  - now rewrite (binary_streamed _ _ _ _ _ Hs).
Qed.

Lemma WellFormed_accepted (r : Request) (token : string) :
  WellFormed r token -> (validateURLPath (URL_ r)).1 = true.
Proof. now intros [H _]. Qed.

Lemma Cleared_WellFormed (env : Env) (r : Request) (token : string) (build : Build)
    (artifactUrl : string) :
  Cleared env r token build artifactUrl -> WellFormed r token.
Proof. now intros [[W _] _]. Qed.

(** The trace of a run: empty for a malformed request, and otherwise the
    resolution of the build of the path, once, then anything else. *)
Lemma Outcome_trace (env : Env) (r : Request) (w : World) :
  Outcome env r w ->
  (trace w = [] /\ forall token, ~ WellFormed r token)
  \/ (exists token rest,
        WellFormed r token
        /\ trace w = CallGetBuild (buildId r) :: rest
        /\ forall id, CallGetBuild id ∉ rest).
Proof.
  assert (N : forall id, CallGetBuild id ∉ ([] : list Call))
    by (intros id; apply not_elem_of_nil).
  assert (B : forall token build artifactUrl filename,
            Cleared env r token build artifactUrl ->
            exists token rest,
              WellFormed r token
              /\ trace (final (handleBinaryResponse env artifactUrl filename
                                                    (resolvedAndTyped r build)))
                 = CallGetBuild (buildId r) :: rest
              /\ forall id, CallGetBuild id ∉ rest).
  { intros token build artifactUrl filename C.
    destruct (binary_trace env artifactUrl filename (resolvedAndTyped r build))
      as (extra & -> & Hall & _).
    exists token, (CallGetBuildType build
                   :: CallStreamArtifact artifactUrl (AuthToken env) :: extra).
    split; [eapply Cleared_WellFormed; eassumption | split; [reflexivity |]].
    intros id. rewrite !not_elem_of_cons. repeat split; try discriminate.
    intros Hin. rewrite forallb_forall in Hall.
    apply list_elem_of_In in Hin. now specialize (Hall _ Hin). }
  intros O. destruct O;
    try (right; eexists _, _;
         split; [first [eassumption | eapply Cleared_WellFormed; eassumption
                       | match goal with H : Resolved _ _ _ _ |- _ => exact (proj1 H) end] |];
         split; [reflexivity |];
         intros id; rewrite ?not_elem_of_cons, elem_of_nil;
         intuition discriminate).
  - left. split; [reflexivity |]. intros token [Hp _]. congruence.
  - left. split; [reflexivity |]. intros token [_ Ht]. congruence.
  - right. eapply B; eassumption.
  - right. eapply B; eassumption.
Qed.

(** The response of a run: a lone [http.Error] with one of four status
    codes, or no error at all. *)
Lemma Outcome_response (env : Env) (r : Request) (w : World) :
  Outcome env r w ->
  (exists msg code,
     rw w = errorResponse msg code
     /\ (code = http.StatusBadRequest \/ code = http.StatusForbidden
         \/ code = http.StatusNotFound \/ code = http.StatusInternalServerError))
  \/ ((http.status (rw w) = Some http.StatusOK \/ http.status (rw w) = None)
      /\ exists token build artifactUrl, Cleared env r token build artifactUrl).
Proof.
  assert (B : forall token build artifactUrl filename,
            Cleared env r token build artifactUrl ->
            let w := final (handleBinaryResponse env artifactUrl filename
                                                 (resolvedAndTyped r build)) in
            (exists msg code,
               rw w = errorResponse msg code
               /\ (code = http.StatusBadRequest \/ code = http.StatusForbidden
                   \/ code = http.StatusNotFound
                   \/ code = http.StatusInternalServerError))
            \/ ((http.status (rw w) = Some http.StatusOK \/ http.status (rw w) = None)
                /\ exists token build artifactUrl,
                     Cleared env r token build artifactUrl)).
  { intros token build artifactUrl filename C w'. subst w'.
    destruct (binary_response env artifactUrl filename (resolvedAndTyped r build)
                eq_refl) as [E | E].
    - left. eauto 10.
    - right. split; [tauto | eauto]. }
  intros O. destruct O;
    try (left; eexists _, _; split; [reflexivity | tauto]);
    try (eapply B; eassumption);
    right; (split; [cbn; auto | eauto]).
Qed.

End run_facts.

Section Runs.
Import url main strings_facts path_facts handler_facts http_facts url_facts run_facts.

(** X6: a request for which no build is cleared (no build whose token
    annotation is the token of the query and whose artifact location is
    not empty) is answered by one [http.Error], with 400, 403, 404 or 500,
    after the resolution call at most; so a run that sends 200 has cleared
    its build. *)
Theorem uncleared_requests_are_refused (env : Env) (r : Request) :
  ((exists token build artifactUrl, Cleared env r token build artifactUrl)
   \/ (exists msg code,
         response (serve env r) = errorResponse msg code
         /\ (code = http.StatusBadRequest \/ code = http.StatusForbidden
             \/ code = http.StatusNotFound \/ code = http.StatusInternalServerError)
         /\ (calls (serve env r) = []
             \/ calls (serve env r) = [CallGetBuild (buildId r)])))
  /\ (http.status (response (serve env r)) = Some http.StatusOK ->
      exists token build artifactUrl, Cleared env r token build artifactUrl).
Proof.
  split.
  - unfold response, calls. destruct (serve_outcome env r);
      try (left; eauto; fail);
      right; eexists _, _; (split; [reflexivity | split; [tauto | auto]]).
  - intros Hst. unfold response in Hst.
    destruct (Outcome_response env r _ (serve_outcome env r))
      as [(msg & code & E & Hc) | [_ C]]; [| exact C].
    rewrite E, errorResponse_status in Hst.
    destruct Hc as [-> | [-> | [-> | ->]]]; discriminate.
Qed.

(** X7: whatever the handler answers with a status other than 200 is a lone
    [http.Error]: plain text, not to be sniffed, one line. *)
Theorem error_responses_are_plain_text (env : Env) (r : Request) (code : Z) :
  http.status (response (serve env r)) = Some code ->
  code <> http.StatusOK ->
  http.Header_Get (response (serve env r)) "Content-Type" = "text/plain; charset=utf-8"
  /\ http.Header_Get (response (serve env r)) "X-Content-Type-Options" = "nosniff"
  /\ (exists msg, http.body (response (serve env r)) = msg +:+ http.newline)
  /\ (code = http.StatusBadRequest \/ code = http.StatusForbidden
      \/ code = http.StatusNotFound \/ code = http.StatusInternalServerError).
Proof.
  intros Hst Hne. unfold response in *.
  destruct (Outcome_response env r _ (serve_outcome env r))
    as [(msg & code' & E & Hc) | [[H | H] _]].
  - rewrite E in *. rewrite errorResponse_status in Hst. injection Hst as ->.
    split; [| split; [| split; [eexists; reflexivity | exact Hc]]].
    + reflexivity.
    + reflexivity.
  - rewrite H in Hst. congruence.
  - rewrite H in Hst. discriminate.
Qed.

Lemma error_responses_are_plain_text_witness :
  http.status (response (serve sample.env sample.wrongToken)) = Some http.StatusForbidden
  /\ http.StatusForbidden <> http.StatusOK
  /\ http.Header_Get (response (serve sample.env sample.wrongToken)) "Content-Type"
     = "text/plain; charset=utf-8".
Proof.
  split; [vm_compute; reflexivity |]. split; [discriminate |].
  destruct (error_responses_are_plain_text sample.env sample.wrongToken
              http.StatusForbidden) as [H _];
    [vm_compute; reflexivity | discriminate | exact H].
Defined.

(** X5: no collaborator is called for a malformed request, and only for a
    malformed one; a well-formed request has its build resolved first,
    under the first segment of the path, and once. *)
Theorem calls_start_with_one_resolution (env : Env) (r : Request) :
  (calls (serve env r) = [] <-> forall token, ~ WellFormed r token)
  /\ (forall token, WellFormed r token ->
        exists rest,
          calls (serve env r) = CallGetBuild (buildId r) :: rest
          /\ forall id, CallGetBuild id ∉ rest).
Proof.
  unfold calls.
  destruct (Outcome_trace env r _ (serve_outcome env r))
    as [[E N] | (token & rest & W & E & Hrest)]; rewrite E.
  - split; [tauto |]. intros token W. now destruct (N token).
  - split.
    + split; [discriminate |]. intros N. now destruct (N token).
    + intros _ _. eauto.
Qed.

(** X8: the artifact is fetched only for a cleared build, from the artifact
    location of its annotation, and with the credential of the service,
    not with the token of the caller; and at most once. *)
Theorem fetch_needs_clearance (env : Env) (r : Request) (artifactUrl authToken : string) :
  CallStreamArtifact artifactUrl authToken ∈ calls (serve env r) ->
  authToken = AuthToken env
  /\ (exists token build, Cleared env r token build artifactUrl)
  /\ exists before after,
       calls (serve env r) = before ++ CallStreamArtifact artifactUrl authToken :: after
       /\ (forall a t, CallStreamArtifact a t ∉ before)
       /\ (forall a t, CallStreamArtifact a t ∉ after).
Proof.
  unfold calls.
  assert (B : forall token build url filename,
            Cleared env r token build url ->
            CallStreamArtifact artifactUrl authToken
              ∈ trace (final (handleBinaryResponse env url filename
                                                   (resolvedAndTyped r build))) ->
            authToken = AuthToken env
            /\ (exists token build, Cleared env r token build artifactUrl)
            /\ exists before after,
                 trace (final (handleBinaryResponse env url filename
                                                    (resolvedAndTyped r build)))
                 = before ++ CallStreamArtifact artifactUrl authToken :: after
                 /\ (forall a t, CallStreamArtifact a t ∉ before)
                 /\ (forall a t, CallStreamArtifact a t ∉ after)).
  { intros token build url filename C.
    destruct (binary_trace env url filename (resolvedAndTyped r build))
      as (extra & -> & _ & Hextra). cbn [resolvedAndTyped trace app].
    rewrite !elem_of_cons. intros [H | [H | [H | H]]]; try discriminate.
    - injection H as -> ->. split; [reflexivity |]. split; [eauto |].
      exists [CallGetBuild (buildId r); CallGetBuildType build], extra.
      split; [reflexivity |]. split; [| exact Hextra].
      intros a t. rewrite !not_elem_of_cons, elem_of_nil. intuition discriminate.
    - now destruct (Hextra artifactUrl authToken). }
  destruct (serve_outcome env r); cbn [trace];
    try (rewrite ?elem_of_cons, elem_of_nil; intuition discriminate);
    try (eapply B; eassumption).
  unfold resolvedAndTyped. cbn [trace].
  rewrite !elem_of_cons, elem_of_nil. intuition discriminate.
Qed.

Lemma fetch_needs_clearance_witness :
  CallStreamArtifact "http://store/a.bin" "service-credential"
    ∈ calls (serve sample.env sample.goodAndroid)
  /\ "service-credential" = AuthToken sample.env
  /\ exists token build,
       Cleared sample.env sample.goodAndroid token build "http://store/a.bin".
Proof.
  assert (H : CallStreamArtifact "http://store/a.bin" "service-credential"
                ∈ calls (serve sample.env sample.goodAndroid)).
  { apply list_elem_of_In. vm_compute. right. right. left. reflexivity. }
  split; [exact H |].
  destruct (fetch_needs_clearance sample.env sample.goodAndroid _ _ H) as (H1 & H2 & _).
  split; [exact H1 | exact H2].
Defined.

End Runs.

Section Panics.
Import url main strings_facts path_facts handler_facts http_facts url_facts run_facts.

Lemma serve_returns_cases (env : Env) (r : Request) :
  returns (serve env r) = true
  \/ exists token build artifactUrl,
       Cleared env r token build artifactUrl
       /\ GetBuildType env build = ("ios", None)
       /\ isArtifactRequest (URL_ r) = false
       /\ isPlistRequest (URL_ r) = false
       /\ encodeItmsUrl env (URL_ r) = None.
Proof.
  destruct ((validateURLPath (URL_ r)).1) eqn:Hp.
  2: { left. unfold serve, handler. now rewrite validateURLPath_pair, Hp. }
  destruct (parseToken_cases (URL_ r)) as [[token Ht] | Ht].
  2: { left. unfold serve, handler. now rewrite validateURLPath_pair, Hp, Ht. }
  assert (W : WellFormed r token) by (split; assumption).
  destruct (GetBuild env (buildId r)) as [build [e|]] eqn:Hb.
  { left. enter W. run. rewrite Hb.
    now destruct (strings.Contains e "not found"). }
  assert (R : Resolved env r token build) by (split; assumption).
  destruct (decide (Annotations build !! GetTokenConst env = Some token)) as [Htok|Htok].
  2: { left. enter W. run. rewrite Hb.
       destruct (Annotations build !! GetTokenConst env) as [v|].
       - rewrite eqb_differ by congruence. reflexivity.
       - cbn [negb]. rewrite orb_true_r. reflexivity. }
  destruct (Annotations build !! GetDownloadConst env) as [artifactUrl|] eqn:Hdl.
  2: { left. enter W. run. now rewrite Hb, Htok, eqb_same, Hdl. }
  destruct (decide (artifactUrl = EmptyString)) as [->|Hne].
  { left. enter W. run. now rewrite Hb, Htok, eqb_same, Hdl. }
  assert (C : Cleared env r token build artifactUrl) by (repeat split; assumption).
  destruct (GetBuildType env build) as [buildType [e|]] eqn:Hty.
  { left. clear_checks C. now rewrite Hty. }
  destruct (decide (buildType = "android")) as [->|Ha].
  { left. rewrite (handler_android _ _ _ _ _ C Hty). apply binary_returns. }
  destruct (decide (buildType = "ios")) as [->|Hi].
  2: { left. clear_checks C. rewrite Hty.
       now rewrite (eqb_differ _ _ Ha), (eqb_differ _ _ Hi). }
  destruct (isArtifactRequest (URL_ r)) eqn:Hart.
  { left. rewrite (handler_ios_artifact _ _ _ _ _ C Hty Hart). apply binary_returns. }
  destruct (isPlistRequest (URL_ r)) eqn:Hpl.
  { left. now rewrite (handler_ios_plist _ _ _ _ _ C Hty Hart Hpl). }
  destruct (encodeItmsUrl env (URL_ r)) as [target|] eqn:Henc.
  - left. now rewrite (handler_ios_landing _ _ _ _ _ _ C Hty Hart Hpl Henc).
  - right. eauto 10.
Qed.

Lemma encodeItmsUrl_None (env : Env) (u : URL) :
  encodeItmsUrl env u = None
  <-> Parse env ("https://" +:+ Getenv env "OPERATOR_HOSTNAME") = None.
Proof.
  rewrite encodeItmsUrl_eq.
  destruct (Parse env ("https://" +:+ Getenv env "OPERATOR_HOSTNAME"));
    split; intros; (discriminate || reflexivity).
Qed.

(** X10: [encodeItmsUrl] panics exactly when [url.Parse] rejects the
    configured host name: the index [v[0]] is never out of range, in
    whatever order the loop visits the query map. *)
Theorem encodeItmsUrl_panics_only_on_parse (env : Env) (u : URL) :
  (encodeItmsUrl env u = None
   <-> Parse env ("https://" +:+ Getenv env "OPERATOR_HOSTNAME") = None)
  /\ (forall entries, entries ≡ₚ map_to_list (Query u) ->
        (encodeItmsUrlIn env entries u = None
         <-> Parse env ("https://" +:+ Getenv env "OPERATOR_HOSTNAME") = None)).
Proof.
  split; [rewrite encodeItmsUrl_eq | intros entries P; rewrite encodeItmsUrlIn_eq by exact P];
    destruct (Parse env ("https://" +:+ Getenv env "OPERATOR_HOSTNAME"));
    split; intros; (discriminate || reflexivity).
Qed.

(** X9: the handler panics in one situation only: the landing page of a
    cleared ios build, when [url.Parse] rejects the configured host name.
    Nothing has been written then.  With a host name that parses, every
    request gets its response. *)
Theorem handler_panics_only_on_parse (env : Env) (r : Request) :
  (returns (serve env r) = false <->
   (exists token build artifactUrl,
      Cleared env r token build artifactUrl
      /\ GetBuildType env build = ("ios", None)
      /\ isArtifactRequest (URL_ r) = false
      /\ isPlistRequest (URL_ r) = false)
   /\ Parse env ("https://" +:+ Getenv env "OPERATOR_HOSTNAME") = None)
  /\ (returns (serve env r) = false -> response (serve env r) = http.newResponseWriter).
Proof.
  assert (P : forall token build artifactUrl,
            Cleared env r token build artifactUrl ->
            GetBuildType env build = ("ios", None) ->
            isArtifactRequest (URL_ r) = false ->
            isPlistRequest (URL_ r) = false ->
            encodeItmsUrl env (URL_ r) = None ->
            serve env r = Panic (resolvedAndTyped r build)).
  { intros. eapply handler_ios_panic; eassumption. }
  split; [split |].
  - intros Hret. destruct (serve_returns_cases env r)
      as [E | (token & build & artifactUrl & C & Hty & Ha & Hp & Henc)]; [congruence |].
    split; [eauto 10 |]. now apply (encodeItmsUrl_None env (URL_ r)).
  - intros [(token & build & artifactUrl & C & Hty & Ha & Hp) Hparse].
    apply (encodeItmsUrl_None env (URL_ r)) in Hparse.
    now rewrite (P _ _ _ C Hty Ha Hp Hparse).
  - intros Hret. destruct (serve_returns_cases env r)
      as [E | (token & build & artifactUrl & C & Hty & Ha & Hp & Henc)]; [congruence |].
    unfold response. now rewrite (P _ _ _ C Hty Ha Hp Henc).
Qed.

(** X11: the response and the calls of the handler depend on the path and the
    raw query of the request only, not on the scheme or the host of its
    URL. *)
Theorem handler_ignores_scheme_and_host (env : Env) (r1 r2 : Request) :
  Path (URL_ r1) = Path (URL_ r2) ->
  RawQuery (URL_ r1) = RawQuery (URL_ r2) ->
  serve env r1 = serve env r2.
Proof.
  destruct r1 as [[s1 o1 u1 h1 p1 rp1 oh1 fq1 q1 f1 rf1]],
    r2 as [[s2 o2 u2 h2 p2 rp2 oh2 fq2 q2 f2 rf2]]. cbn [URL_ Path RawQuery].
  intros -> ->.
  unfold serve, handler, validateURLPath, parseToken, isArtifactRequest,
    isPlistRequest, encodeItmsUrl, encodeItmsUrlIn, Query.
  cbn [URL_ Path RawQuery]. reflexivity.
Qed.

Lemma handler_ignores_scheme_and_host_witness :
  Path (URL_ sample.iosLanding) = "/ios7/download"
  /\ RawQuery (URL_ sample.iosLanding) = "token=right"
  /\ serve sample.env sample.iosLanding
     = serve sample.env
         {| URL_ := bareURL "http" "elsewhere.example" "/ios7/download"
                            "token=right" |}.
Proof.
  split; [reflexivity |]. split; [reflexivity |].
  apply (handler_ignores_scheme_and_host sample.env); reflexivity.
Defined.

End Panics.

Section ManifestRoundTrip.
Import url main url_facts encode_facts.

Lemma Get_manifestParams (u : URL) (k : string) :
  k <> "plist" -> Get (manifestParams u) k = Get (Query u) k.
Proof.
  intros Hk. unfold Get. rewrite manifestParams_other by exact Hk.
  now destruct (Query u !! k) as [[|x xs]|].
Qed.

(** X12: the manifest URL is the text of the URL that [url.Parse] made of
    the configured host name, with the path of the inbound URL and the
    encoded parameters as its query, and with every other field (user,
    fragment, raw path and so on) as parsed.  Asked for in its turn, it
    carries the token of the request it was built from and its [artifact]
    flag; it is a manifest request when the inbound query has no [plist]
    parameter, and otherwise only when the first one is already [true]:
    the added [plist=true] comes after the values that were there. *)
Theorem manifest_url_keeps_token_and_intent (env : Env) (u directTo : URL) :
  Parse env ("https://" +:+ Getenv env "OPERATOR_HOSTNAME") = Some directTo ->
  let out :=
    {| Scheme := Scheme directTo; Opaque := Opaque directTo;
       User := User directTo; Host := Host directTo; Path := Path u;
       RawPath := RawPath directTo; OmitHost := OmitHost directTo;
       ForceQuery := ForceQuery directTo;
       RawQuery := Encode (manifestParams u);
       Fragment := Fragment directTo; RawFragment := RawFragment directTo |} in
  encodeItmsUrl env u = Some (URL_String out)
  /\ (forall t, parseToken u = (t, None) -> parseToken out = (t, None))
  /\ isArtifactRequest out = isArtifactRequest u
  /\ (isPlistRequest out = true
      <-> Query u !! "plist" = None \/ Get (Query u) "plist" = "true").
Proof.
  intros Hparse out.
  assert (Q : Query out = manifestParams u).
  { unfold Query. cbn [out RawQuery].
    apply ParseQuery_Encode, NonEmptyValues_manifestParams. }
  split; [now rewrite encodeItmsUrl_eq, Hparse |].
  unfold parseToken, isArtifactRequest, isPlistRequest. rewrite Q.
  split; [| split].
  - intros t. rewrite manifestParams_other by discriminate.
    destruct (Query u !! "token") as [[|x [|y ys]]|]; intros H; simplify_eq.
    reflexivity.
  - now rewrite Get_manifestParams by discriminate.
  - rewrite String.eqb_eq. unfold Get at 1. rewrite manifestParams_plist.
    pose proof (NonEmptyValues_Query u "plist") as NE. unfold Get.
    destruct (Query u !! "plist") as [[|x xs]|]; simpl.
    + now destruct (NE [] eq_refl).
    + split; [auto | intros [H | H]; [discriminate | exact H]].
    + split; auto.
Qed.

Lemma manifest_url_keeps_token_and_intent_witness :
  Parse sample.envUserHost
    ("https://" +:+ Getenv sample.envUserHost "OPERATOR_HOSTNAME")
  = Some {| Scheme := "https"; Opaque := EmptyString;
            User := Some {| username := "ops"; password := EmptyString;
                            passwordSet := false |};
            Host := "gateway.example.com"; Path := EmptyString;
            RawPath := EmptyString; OmitHost := false; ForceQuery := false;
            RawQuery := EmptyString; Fragment := "top";
            RawFragment := EmptyString |}
  /\ encodeItmsUrl sample.envUserHost (URL_ sample.iosLanding)
     = Some "https://ops@gateway.example.com/ios7/download?plist=true&token=right#top"
  /\ exists out,
       encodeItmsUrl sample.envUserHost (URL_ sample.iosLanding)
       = Some (URL_String out)
       /\ parseToken out = ("right", None)
       /\ isPlistRequest out = true.
Proof.
  assert (P : Parse sample.envUserHost
                ("https://" +:+ Getenv sample.envUserHost "OPERATOR_HOSTNAME")
              = Some {| Scheme := "https"; Opaque := EmptyString;
                        User := Some {| username := "ops"; password := EmptyString;
                                        passwordSet := false |};
                        Host := "gateway.example.com"; Path := EmptyString;
                        RawPath := EmptyString; OmitHost := false;
                        ForceQuery := false; RawQuery := EmptyString;
                        Fragment := "top"; RawFragment := EmptyString |})
    by (vm_compute; reflexivity).
  split; [exact P |].
  destruct (manifest_url_keeps_token_and_intent sample.envUserHost
              (URL_ sample.iosLanding) _ P) as (E & Ht & _ & Hp).
  split; [rewrite E; vm_compute; reflexivity |].
  eexists. split; [exact E |]. split.
  - apply Ht. vm_compute. reflexivity.
  - apply Hp. left. vm_compute. reflexivity.
Defined.

End ManifestRoundTrip.

Section BinaryWitnesses.
Import url main.

Lemma binary_closes_stream_witness :
  StreamArtifact sample.env "http://store/cut.bin" (AuthToken sample.env)
  = ({| copied := "PK-"; copyErr := Some "broken pipe";
        closeErr := Some "already closed" |}, None)
  /\ exists before after,
       trace (final (handleBinaryResponse sample.env "http://store/cut.bin" "b1.apk" start))
       = trace start ++ before
           ++ CallClose {| copied := "PK-"; copyErr := Some "broken pipe";
                           closeErr := Some "already closed" |} :: after.
Proof.
  split; [reflexivity |].
  destruct (binary_closes_stream sample.env "http://store/cut.bin" "b1.apk" _ start
              eq_refl) as (before & after & E & _).
  exists before, after. exact E.
Defined.

Lemma binary_copy_failure_is_silent_witness :
  StreamArtifact sample.env "http://store/cut.bin" (AuthToken sample.env)
  = ({| copied := "PK-"; copyErr := Some "broken pipe";
        closeErr := Some "already closed" |}, None)
  /\ rw (final (handleBinaryResponse sample.env "http://store/cut.bin" "b1.apk" start))
     = streamed (rw start) "b1.apk"
         {| copied := "PK-"; copyErr := Some "broken pipe";
            closeErr := Some "already closed" |}.
Proof.
  split; [reflexivity |].
  destruct (binary_copy_failure_is_silent sample.env "http://store/cut.bin" "b1.apk" _
              "broken pipe" start eq_refl eq_refl) as [E _].
  exact E.
Defined.

Lemma binary_fetch_failure_is_opaque_witness :
  StreamArtifact sample.env "http://store/gone.bin" (AuthToken sample.env)
  = (sample.closed, Some "unexpected status 404")
  /\ StreamArtifact sample.env "http://other/secret.bin" (AuthToken sample.env)
     = (sample.closed, Some "unexpected status 404")
  /\ rw (final (handleBinaryResponse sample.env "http://store/gone.bin" "a.apk" start))
     = rw (final (handleBinaryResponse sample.env "http://other/secret.bin" "b.ipa" start)).
Proof.
  split; [reflexivity |]. split; [reflexivity |].
  exact (binary_fetch_failure_is_opaque sample.env "http://store/gone.bin"
           "http://other/secret.bin" "a.apk" "b.ipa" _ _ _ _ start eq_refl eq_refl).
Defined.

End BinaryWitnesses.

(* ===================================================================== *)
(** * Start-up *)
(* ===================================================================== *)

Section Startup.
Import startup.

Lemma serveHttp_from (b : Boot) (t : list Action) :
  serveHttp b t = ((serveHttp b []).1, t ++ (serveHttp b []).2).
Proof.
  unfold serveHttp, mbind, Proc_bind, mret, Proc_ret, act, log_Fatal.
  cbn [app fst snd].
  destruct (ListenAndServe b _); cbn [app fst snd]; now rewrite <- !app_assoc.
Qed.

(** X16: the server listens on [:] and the configured port, and on [:8080]
    when none is configured; when [ListenAndServe] comes back with an
    error the process ends with a fatal line that names the address, and
    the line [listening on ...] is printed only when it comes back
    without one, that is after the server has stopped. *)
Theorem serveHttp_listens_on_the_configured_port (b : Boot) :
  exists addr,
    addr = ":" +:+ (if String.eqb (Getenv b "ARTIFACT_PROXY_OPERATOR_SERVICE_PORT")
                                  EmptyString
                    then "8080"
                    else Getenv b "ARTIFACT_PROXY_OPERATOR_SERVICE_PORT")
    /\ (forall e, ListenAndServe b addr = Some e ->
          actions (serveHttp b)
          = [ActHandleFunc "/"; ActListenAndServe addr;
             ActFatal ("error starting http server on " +:+ addr +:+ ", (" +:+ e +:+ ")")]
          /\ completed (serveHttp b) = false)
    /\ (ListenAndServe b addr = None ->
          actions (serveHttp b)
          = [ActHandleFunc "/"; ActListenAndServe addr;
             ActPrintf ("listening on " +:+ addr)]
          /\ completed (serveHttp b) = true).
Proof.
  eexists. split; [reflexivity |].
  unfold actions, completed, serveHttp, mbind, Proc_bind, mret, Proc_ret, act, log_Fatal.
  cbn [app fst snd].
  generalize (Getenv b "ARTIFACT_PROXY_OPERATOR_SERVICE_PORT"). intros port.
  assert (A : (if (String.length port =? 0)%nat then ":8080" else ":" +:+ port)
              = ":" +:+ (if String.eqb port EmptyString then "8080" else port))
    by (destruct port; reflexivity).
  rewrite A. split.
  - intros e H. rewrite H. split; reflexivity.
  - intros H. rewrite H. split; reflexivity.
Qed.

(** X17: when the OpenShift client cannot be made the process ends there: no
    watcher is started, no handler registered, no port opened.  Otherwise
    the watcher is started before the server. *)
Theorem main_needs_the_client (b : Boot) :
  (forall e, NewOpenShiftClient b = Some e ->
     actions (startup.main b)
     = [ActNewJenkinsClient; ActNewOpenShiftClient;
        ActFatal ("error instantiating OpenShiftClient - error " +:+ e)]
     /\ completed (startup.main b) = false)
  /\ (NewOpenShiftClient b = None ->
      actions (startup.main b)
      = [ActNewJenkinsClient; ActNewOpenShiftClient; ActGo "osClient.WatchBuilds"]
          ++ actions (serveHttp b)
      /\ completed (startup.main b) = completed (serveHttp b)).
Proof.
  unfold actions, completed, startup.main, mbind, Proc_bind, mret, Proc_ret, act,
    log_Fatal. cbn [app fst snd].
  split.
  - intros e ->. split; reflexivity.
  - intros ->. rewrite serveHttp_from. cbn [fst snd]. split; reflexivity.
Qed.

Lemma main_needs_the_client_witness :
  NewOpenShiftClient sample.bootNoCluster = Some "no cluster configuration"
  /\ actions (startup.main sample.bootNoCluster)
     = [ActNewJenkinsClient; ActNewOpenShiftClient;
        ActFatal "error instantiating OpenShiftClient - error no cluster configuration"].
Proof.
  split; [reflexivity |].
  destruct (main_needs_the_client sample.bootNoCluster) as [H _].
  destruct (H _ eq_refl) as [E _]. exact E.
Defined.

End Startup.
